(** * Financial statement dashboard: ratio engine, data fetcher, peer loop

    A shallow embedding of [financial_statement_dashboard.py]:
    - Python numbers as the code has them: the integer literals [0], [1],
      [100] and the binary64 cells of the pandas frames;
    - a pandas [Series] as a finite map from line-item name to cell, a
      [DataFrame] as its list of columns, most recent first;
    - Python dictionaries with string keys as [gmap string _];
    - exceptions as an error monad, with [try ... except Exception]. *)

From Stdlib Require Import ZArith.
From Stdlib Require Import Floats.PrimFloat.
From stdpp Require Import gmap strings list fin_maps.

Local Open Scope Z_scope.

(** ** Python numbers *)

(** A value is a Python [int] (the literals of the code and what integer
    arithmetic makes of them) or a binary64 float (a cell of a frame, or
    the result of a true division). *)
Inductive pynum : Type :=
  | PyInt (z : Z)
  | PyFloat (f : float).

(** Conversion of an [int] operand of a mixed operation, bit by bit; it
    is exact up to [2^53] in magnitude. The program only ever converts
    [0], [1] and [100]. *)
Fixpoint float_of_pos (p : positive) : float :=
  match p with
  | xH => PrimFloat.one
  | xO q => PrimFloat.mul PrimFloat.two (float_of_pos q)
  | xI q => PrimFloat.add (PrimFloat.mul PrimFloat.two (float_of_pos q)) PrimFloat.one
  end.

Definition float_of_int (z : Z) : float :=
  match z with
  | Z0 => PrimFloat.zero
  | Zpos p => float_of_pos p
  | Zneg p => PrimFloat.opp (float_of_pos p)
  end.

Definition to_float (v : pynum) : float :=
  match v with
  | PyInt z => float_of_int z
  | PyFloat f => f
  end.

(** [v != 0]: integer comparison on ints, IEEE comparison on floats (so
    [-0.0 != 0] is false and [nan != 0] is true). *)
Definition ne0 (v : pynum) : bool :=
  match v with
  | PyInt z => negb (z =? 0)
  | PyFloat f => negb (PrimFloat.eqb f PrimFloat.zero)
  end.

Definition is_nan (v : pynum) : bool :=
  match v with
  | PyInt _ => false
  | PyFloat f => PrimFloat.is_nan f
  end.

(** ** Exceptions *)

Record Exception : Type := mkException {
  exc_class : string;
  exc_str : string   (* what [str(e)] gives *)
}.

Definition result (A : Type) : Type := (Exception + A)%type.

Definition ret {A : Type} (a : A) : result A := inr a.
Definition raise {A : Type} (e : Exception) : result A := inl e.

Definition bind {A B : Type} (m : result A) (k : A -> result B) : result B :=
  match m with
  | inl e => inl e
  | inr a => k a
  end.

Notation "x <- m ;; k" := (bind m (fun x => k))
  (at level 100, m at next level, right associativity).

(** [try: body except Exception as e: handler e] *)
Definition try_except {A : Type} (body : result A)
    (handler : Exception -> result A) : result A :=
  match body with
  | inl e => handler e
  | inr a => inr a
  end.

Definition ZeroDivisionError : Exception :=
  mkException "ZeroDivisionError" "division by zero".

(** ** Arithmetic *)

(** [a / b]. Python's true division always gives a float; a zero divisor
    is an arithmetic failure ([ZeroDivisionError] on Python numbers;
    binary64 operands of numpy would give an infinity or a NaN with a
    warning instead). [calculate_ratios] tests every divisor first and
    never gets there. *)
Definition truediv (a b : pynum) : result pynum :=
  if ne0 b then ret (PyFloat (PrimFloat.div (to_float a) (to_float b)))
  else raise ZeroDivisionError.

(** [a * b] and [a - b]: integer arithmetic on two ints, binary64
    otherwise. *)
Definition mul (a b : pynum) : pynum :=
  match a, b with
  | PyInt x, PyInt y => PyInt (x * y)
  | _, _ => PyFloat (PrimFloat.mul (to_float a) (to_float b))
  end.

Definition sub (a b : pynum) : pynum :=
  match a, b with
  | PyInt x, PyInt y => PyInt (x - y)
  | _, _ => PyFloat (PrimFloat.sub (to_float a) (to_float b))
  end.

(** ** pandas frames *)

(** A column of a statement ([Series]): the binary64 cell of every line
    item, by row label. A present cell may hold [nan]. *)
Abbreviation Series := (gmap string float) (only parsing).

(** A statement ([DataFrame]): its columns, most recent period first.
    All columns share the row index. *)
Definition DataFrame : Type := list Series.

(** [df.empty]: some axis has length zero, that is, there is no column
    or the (shared) row index has no label. *)
Definition df_empty (df : DataFrame) : bool :=
  match df with
  | [] => true
  | col :: _ => bool_decide (size col = 0%nat)
  end.

Definition IndexError : Exception :=
  mkException "IndexError" "single positional indexer is out-of-bounds".

(** [df.iloc[:, 0]] *)
Definition iloc_col0 (df : DataFrame) : result Series :=
  match df with
  | [] => raise IndexError
  | col :: _ => ret col
  end.

(** [series.get(key, default)] *)
Definition series_get (s : Series) (key : string)
    (default : pynum) : pynum :=
  match s !! key with
  | Some f => PyFloat f
  | None => default
  end.

(** ** The record returned by the fetcher *)

Inductive info_value : Type :=
  | InfoStr (s : string)
  | InfoNum (v : pynum).

(** The dictionary [fetch_financial_data] returns: the success form
    ['success': True] with the metadata and the three statements, or the
    failure form ['success': False] with the error text. *)
Inductive FetchData : Type :=
  | FetchOk (info : gmap string info_value)
            (income_statement balance_sheet cash_flow : DataFrame)
  | FetchFailed (error : string).

(** [data['success']] *)
Definition success (data : FetchData) : bool :=
  match data with
  | FetchOk _ _ _ _ => true
  | FetchFailed _ => false
  end.

Definition KeyError (key : string) : Exception :=
  mkException "KeyError" ("'" +:+ key +:+ "'").

(** [data[key]] for one of the three statement keys *)
Definition getitem_frame (data : FetchData) (key : string) : result DataFrame :=
  match data with
  | FetchOk _ inc bs cf =>
      if String.eqb key "income_statement" then ret inc
      else if String.eqb key "balance_sheet" then ret bs
      else if String.eqb key "cash_flow" then ret cf
      else raise (KeyError key)
  | FetchFailed _ => raise (KeyError key)
  end.

(** ** The user interface, as the list of messages shown *)

Inductive UiEvent : Type :=
  | StError (msg : string)
  | StInfo (msg : string).

(** ** Ratio engine *)

(** The body of the [try] block of [calculate_ratios]. *)
Definition calculate_ratios_try (data : FetchData)
    : result (option (gmap string pynum)) :=
  bs <- getitem_frame data "balance_sheet" ;;
  inc <- getitem_frame data "income_statement" ;;
  cf <- getitem_frame data "cash_flow" ;;
  let ratios : gmap string pynum := ∅ in
  if df_empty bs || df_empty inc then ret None else
  latest_bs <- iloc_col0 bs ;;
  latest_inc <- iloc_col0 inc ;;
  latest_cf <- (if negb (df_empty cf)
                then (c <- iloc_col0 cf ;; ret (Some c))
                else ret None) ;;
  (* Profitability Ratios *)
  let net_income := series_get latest_inc "Net Income" (PyInt 0) in
  let revenue := series_get latest_inc "Total Revenue" (PyInt 1) in
  let total_assets := series_get latest_bs "Total Assets" (PyInt 1) in
  let total_equity := series_get latest_bs "Total Stockholder Equity" (PyInt 1) in
  v <- (if ne0 revenue
        then (q <- truediv net_income revenue ;; ret (mul q (PyInt 100)))
        else ret (PyInt 0)) ;;
  let ratios := <["Net Profit Margin" := v]> ratios in
  v <- (if ne0 total_assets
        then (q <- truediv net_income total_assets ;; ret (mul q (PyInt 100)))
        else ret (PyInt 0)) ;;
  let ratios := <["ROA" := v]> ratios in
  v <- (if ne0 total_equity
        then (q <- truediv net_income total_equity ;; ret (mul q (PyInt 100)))
        else ret (PyInt 0)) ;;
  let ratios := <["ROE" := v]> ratios in
  (* Liquidity Ratios *)
  let current_assets := series_get latest_bs "Current Assets" (PyInt 0) in
  let current_liabilities := series_get latest_bs "Current Liabilities" (PyInt 1) in
  let cash := series_get latest_bs "Cash And Cash Equivalents" (PyInt 0) in
  let inventory := series_get latest_bs "Inventory" (PyInt 0) in
  v <- (if ne0 current_liabilities
        then truediv current_assets current_liabilities
        else ret (PyInt 0)) ;;
  let ratios := <["Current Ratio" := v]> ratios in
  v <- (if ne0 current_liabilities
        then truediv (sub current_assets inventory) current_liabilities
        else ret (PyInt 0)) ;;
  let ratios := <["Quick Ratio" := v]> ratios in
  v <- (if ne0 current_liabilities
        then truediv cash current_liabilities
        else ret (PyInt 0)) ;;
  let ratios := <["Cash Ratio" := v]> ratios in
  (* Leverage Ratios *)
  let total_debt := series_get latest_bs "Total Debt" (PyInt 0) in
  let total_liabilities :=
    series_get latest_bs "Total Liabilities Net Minority Interest" (PyInt 0) in
  v <- (if ne0 total_equity
        then truediv total_debt total_equity
        else ret (PyInt 0)) ;;
  let ratios := <["Debt to Equity" := v]> ratios in
  v <- (if ne0 total_assets
        then truediv total_debt total_assets
        else ret (PyInt 0)) ;;
  let ratios := <["Debt to Assets" := v]> ratios in
  v <- (if ne0 total_equity
        then truediv total_assets total_equity
        else ret (PyInt 0)) ;;
  let ratios := <["Equity Multiplier" := v]> ratios in
  (* Efficiency Ratios *)
  v <- (if ne0 total_assets
        then truediv revenue total_assets
        else ret (PyInt 0)) ;;
  let ratios := <["Asset Turnover" := v]> ratios in
  (* Operating metrics *)
  let operating_income := series_get latest_inc "Operating Income" (PyInt 0) in
  v <- (if ne0 revenue
        then (q <- truediv operating_income revenue ;; ret (mul q (PyInt 100)))
        else ret (PyInt 0)) ;;
  let ratios := <["Operating Margin" := v]> ratios in
  ret (Some ratios).

(** [calculate_ratios]: the [try] block, and the handler that shows the
    error and returns [None]. The result comes with the messages shown. *)
Definition calculate_ratios (data : FetchData)
    : option (gmap string pynum) * list UiEvent :=
  match calculate_ratios_try data with
  | inr r => (r, [])
  | inl e => (None, [StError ("Error calculating ratios: " +:+ exc_str e)])
  end.

(** ** Closed form of the ratio table

    What the [try] block computes once both statements are known to be
    non-empty, written without the error monad. It is related to the
    code by [calculate_ratios_try_nonempty] below. *)

Definition quotient (n d : pynum) : pynum :=
  PyFloat (PrimFloat.div (to_float n) (to_float d)).

(** [n / d if d != 0 else 0] *)
Definition guarded (n d : pynum) : pynum :=
  if ne0 d then quotient n d else PyInt 0.

(** [(n / d * 100) if d != 0 else 0] *)
Definition guarded_pct (n d : pynum) : pynum :=
  if ne0 d then mul (quotient n d) (PyInt 100) else PyInt 0.

Definition ratios_of (latest_inc latest_bs : Series)
    : gmap string pynum :=
  let net_income := series_get latest_inc "Net Income" (PyInt 0) in
  let revenue := series_get latest_inc "Total Revenue" (PyInt 1) in
  let total_assets := series_get latest_bs "Total Assets" (PyInt 1) in
  let total_equity := series_get latest_bs "Total Stockholder Equity" (PyInt 1) in
  let current_assets := series_get latest_bs "Current Assets" (PyInt 0) in
  let current_liabilities := series_get latest_bs "Current Liabilities" (PyInt 1) in
  let cash := series_get latest_bs "Cash And Cash Equivalents" (PyInt 0) in
  let inventory := series_get latest_bs "Inventory" (PyInt 0) in
  let total_debt := series_get latest_bs "Total Debt" (PyInt 0) in
  let operating_income := series_get latest_inc "Operating Income" (PyInt 0) in
  <["Operating Margin" := guarded_pct operating_income revenue]>
  (<["Asset Turnover" := guarded revenue total_assets]>
  (<["Equity Multiplier" := guarded total_assets total_equity]>
  (<["Debt to Assets" := guarded total_debt total_assets]>
  (<["Debt to Equity" := guarded total_debt total_equity]>
  (<["Cash Ratio" := guarded cash current_liabilities]>
  (<["Quick Ratio" := guarded (sub current_assets inventory) current_liabilities]>
  (<["Current Ratio" := guarded current_assets current_liabilities]>
  (<["ROE" := guarded_pct net_income total_equity]>
  (<["ROA" := guarded_pct net_income total_assets]>
  (<["Net Profit Margin" := guarded_pct net_income revenue]> ∅)))))))))).

(** The eleven ratio names, in the order the code assigns them. *)
Definition ratio_names : list string :=
  [ "Net Profit Margin"; "ROA"; "ROE"; "Current Ratio"; "Quick Ratio";
    "Cash Ratio"; "Debt to Equity"; "Debt to Assets"; "Equity Multiplier";
    "Asset Turnover"; "Operating Margin" ].

(** ** Vocabulary of the statements about the ratio engine *)

Inductive statement : Type := IncomeStatement | BalanceSheet.

Definition column_of (st : statement) (latest_inc latest_bs : Series)
    : Series :=
  match st with
  | IncomeStatement => latest_inc
  | BalanceSheet => latest_bs
  end.

(** The line item each ratio divides by, as the formulas of the ratio
    engine list them. *)
Definition ratio_denominator : list (string * (statement * string)) :=
  [ ("Net Profit Margin", (IncomeStatement, "Total Revenue"));
    ("ROA", (BalanceSheet, "Total Assets"));
    ("ROE", (BalanceSheet, "Total Stockholder Equity"));
    ("Current Ratio", (BalanceSheet, "Current Liabilities"));
    ("Quick Ratio", (BalanceSheet, "Current Liabilities"));
    ("Cash Ratio", (BalanceSheet, "Current Liabilities"));
    ("Debt to Equity", (BalanceSheet, "Total Stockholder Equity"));
    ("Debt to Assets", (BalanceSheet, "Total Assets"));
    ("Equity Multiplier", (BalanceSheet, "Total Stockholder Equity"));
    ("Asset Turnover", (BalanceSheet, "Total Assets"));
    ("Operating Margin", (IncomeStatement, "Total Revenue")) ].

(** The line item is present in the column and its value is zero
    ([0.0] or [-0.0]). *)
Definition zero_item (col : Series) (name : string) : Prop :=
  exists f, col !! name = Some f /\ PrimFloat.eqb f PrimFloat.zero = true.

(** Sample statements. *)
Definition income_1e9 : Series :=
  {[ "Total Revenue" := 1000000000%float; "Net Income" := 100000000%float ]}.

Definition balance_500 : Series :=
  {[ "Current Assets" := 500%float; "Inventory" := 200%float;
     "Current Liabilities" := 250%float ]}.

Definition income_no_revenue : Series :=
  {[ "Total Revenue" := 0%float; "Net Income" := 5%float;
     "Operating Income" := 7%float ]}.

(** What the two worked examples of the specification say of a
    statement set. *)
Definition net_profit_margin_is_10 (data : FetchData) : Prop :=
  exists ratios, fst (calculate_ratios data) = Some ratios /\
    ratios !! "Net Profit Margin" = Some (PyFloat 10).

Definition liquidity_is_2_and_1_2 (data : FetchData) : Prop :=
  exists ratios, fst (calculate_ratios data) = Some ratios /\
    ratios !! "Current Ratio" = Some (PyFloat 2) /\
    ratios !! "Quick Ratio" = Some (PyFloat 0x1.3333333333333p+0).

(** ** Defaults of absent line items *)








Definition balance_assets_2 : Series :=
  {[ "Total Assets" := 2%float ]}.

(** ** Data fetcher *)

(** The object [yf.Ticker(ticker)] gives; reading an attribute is a
    request to the provider and may raise. *)
Module yf.
Record Ticker : Type := mkTicker {
  info : result (gmap string info_value);
  financials : result DataFrame;
  balance_sheet : result DataFrame;
  cashflow : result DataFrame
}.
End yf.

(** The cache of the decorator: by ticker, the value returned and the
    time (in seconds) at which it was stored; and, for the statements
    about it, the number of calls passed on to the decorated function. *)
Record Cache : Type := mkCache {
  entries : gmap string (FetchData * Z);
  remote_calls : nat
}.

Definition ttl : Z := 3600.

(** The entry of the ticker, while it is younger than [ttl]. *)
Definition cache_get (now : Z) (ticker : string) (c : Cache) : option FetchData :=
  match entries c !! ticker with
  | Some (v, stored) => if now <? stored + ttl then Some v else None
  | None => None
  end.

(** Modelled from the spec: [st.cache_data(ttl=3600)], the decorator of
    the dashboard framework, is not part of the source. As the
    specification has it, results are cached keyed by ticker for 3600
    seconds, and a call within the window returns the cached value
    without a new remote call; a call outside it runs the decorated
    function and stores what it returns. The clock is the argument
    [now]; the decorated function receives the number of earlier remote
    calls, so that the provider may answer differently each time. *)
Definition cache_data (f : nat -> string -> result FetchData)
    (now : Z) (ticker : string) (c : Cache) : result FetchData * Cache :=
  match cache_get now ticker c with
  | Some v => (ret v, c)
  | None =>
      match f (remote_calls c) ticker with
      | inr v => (ret v, mkCache (<[ticker := (v, now)]> (entries c))
                                 (S (remote_calls c)))
      | inl e => (raise e, mkCache (entries c) (S (remote_calls c)))
      end
  end.

Section Fetcher.

(** The provider: what [yf.Ticker(ticker)] does at the n-th remote
    call. *)
Variable yf_Ticker : nat -> string -> result yf.Ticker.

(** The function under the decorator. *)
Definition fetch_financial_data_fn (n : nat) (ticker : string)
    : result FetchData :=
  try_except
    (stock <- yf_Ticker n ticker ;;
     info <- yf.info stock ;;
     (* Get financial statements *)
     income_stmt <- yf.financials stock ;;
     balance_sheet <- yf.balance_sheet stock ;;
     cash_flow <- yf.cashflow stock ;;
     ret (FetchOk info income_stmt balance_sheet cash_flow))
    (fun e => ret (FetchFailed (exc_str e))).

(** [fetch_financial_data], decorated. *)
Definition fetch_financial_data (now : Z) (ticker : string) (c : Cache)
    : result FetchData * Cache :=
  cache_data fetch_financial_data_fn now ticker c.

(** A sequence of calls, each at its time, results dropped. *)
Definition run_calls (calls : list (Z * string)) (c : Cache) : Cache :=
  fold_left (fun c call => snd (fetch_financial_data (fst call) (snd call) c))
            calls c.

(** The provider fails with [e] at the n-th remote call: the first
    request that raises, raises [e]. *)
Inductive provider_raises (n : nat) (ticker : string) (e : Exception) : Prop :=
  | raises_Ticker :
      yf_Ticker n ticker = inl e -> provider_raises n ticker e
  | raises_info stock :
      yf_Ticker n ticker = inr stock -> yf.info stock = inl e ->
      provider_raises n ticker e
  | raises_financials stock i :
      yf_Ticker n ticker = inr stock -> yf.info stock = inr i ->
      yf.financials stock = inl e -> provider_raises n ticker e
  | raises_balance_sheet stock i inc :
      yf_Ticker n ticker = inr stock -> yf.info stock = inr i ->
      yf.financials stock = inr inc -> yf.balance_sheet stock = inl e ->
      provider_raises n ticker e
  | raises_cashflow stock i inc bs :
      yf_Ticker n ticker = inr stock -> yf.info stock = inr i ->
      yf.financials stock = inr inc -> yf.balance_sheet stock = inr bs ->
      yf.cashflow stock = inl e -> provider_raises n ticker e.

(** The provider answers every request of the n-th remote call. *)
Definition provider_answers (n : nat) (ticker : string)
    (i : gmap string info_value) (inc bs cf : DataFrame) : Prop :=
  exists stock, yf_Ticker n ticker = inr stock /\
    yf.info stock = inr i /\ yf.financials stock = inr inc /\
    yf.balance_sheet stock = inr bs /\ yf.cashflow stock = inr cf.

End Fetcher.

(** A provider that knows one ticker. *)
Definition sample_provider (n : nat) (ticker : string) : result yf.Ticker :=
  if String.eqb ticker "AAPL"
  then ret (yf.mkTicker (ret ∅) (ret [income_1e9]) (ret [balance_500]) (ret []))
  else raise (mkException "ValueError" "unknown ticker").

Definition empty_cache : Cache := mkCache ∅ 0.

(** ** Peer comparison *)

(** The peer tab: the dictionary [peer_ratios] (a value may be [None])
    and the messages shown. *)
Record PeerTab : Type := mkPeerTab {
  peer_ratios : gmap string (option (gmap string pynum));
  shown : list UiEvent
}.

Definition key_ratios : list string :=
  [ "Net Profit Margin"; "ROE"; "ROA"; "Current Ratio"; "Debt to Equity" ].

(** [if ratios:] on a value of [peer_ratios]: [None] and the empty
    dictionary are false. *)
Definition truthy (ratios : option (gmap string pynum)) : bool :=
  match ratios with
  | Some r => negb (bool_decide (size r = 0%nat))
  | None => false
  end.

(** The cells of one row of the comparison table, by company: the
    number [ratios[ratio_name]] that the source formats to two
    decimals, or the [KeyError] of that lookup. A company whose ratios
    are not truthy has no cell. *)
Definition comparison_row
    (peer_ratios : gmap string (option (gmap string pynum)))
    (ratio_name : string) : gmap string (result pynum) :=
  omap (fun ratios : option (gmap string pynum) =>
          if truthy ratios then
            match ratios with
            | Some r =>
                Some (match r !! ratio_name with
                      | Some v => ret v
                      | None => raise (KeyError ratio_name)
                      end)
            | None => None
            end
          else None)
       peer_ratios.

(** What one run of the script leaves of the peer tab. *)
Inductive Run : Type :=
  | Stopped (shown : list UiEvent)     (* [st.stop()] after a failed fetch *)
  | NoPeers (shown : list UiEvent)     (* the list of peers is empty *)
  | PeerTable (tab : PeerTab).

Section Dashboard.

(** [fetch_financial_data] as the script sees it during one run: the
    decorator memoises it, so that a ticker has one record. *)
Variable fetch : string -> FetchData.

(** The body of [for peer in peers:]. *)
Definition peer_step (acc : PeerTab) (peer : string) : PeerTab :=
  let peer_data := fetch peer in
  if success peer_data then
    let '(ratios, ev) := calculate_ratios peer_data in
    mkPeerTab (<[peer := ratios]> (peer_ratios acc)) (shown acc ++ ev)
  else acc.

Definition peer_loop (peers : list string) (acc : PeerTab) : PeerTab :=
  fold_left peer_step peers acc.

(** Tab 6, down to the loop. *)
Definition peer_comparison (ticker_input : string) (company_data : FetchData)
    (peers : list string) : Run :=
  match peers with
  | [] => NoPeers
            [StInfo "💡 Enter peer tickers in the sidebar to enable comparison analysis."]
  | _ :: _ =>
      let '(ratios, ev) := calculate_ratios company_data in
      PeerTable (peer_loop peers (mkPeerTab (<[ticker_input := ratios]> ∅) ev))
  end.

(** The script as far as the peer tab is concerned: the fetch of the
    company, the stop when it failed, and tab 6. Tabs 1 to 5, which run
    in between and may end the run, are not part of this definition; it
    says what tab 6 holds in a run that gets there. *)
Definition dashboard (ticker_input : string) (peers : list string) : Run :=
  let company_data := fetch ticker_input in
  if negb (success company_data) then
    Stopped [StError ("❌ Could not fetch data for " +:+ ticker_input +:+
                      ". Please check the ticker symbol and try again.")]
  else peer_comparison ticker_input company_data peers.

End Dashboard.

(** A memoised fetcher that knows one ticker. *)
Definition sample_fetch (ticker : string) : FetchData :=
  if String.eqb ticker "AAPL"
  then FetchOk ∅ [income_1e9] [balance_500] []
  else if String.eqb ticker "MSFT"
  then FetchOk ∅ [income_no_revenue] [balance_assets_2] []
  else FetchFailed "unknown ticker".

(** ** Ratio tab (tab 4) *)

(** The line items of each statement that enter a ratio. *)
Definition income_items_used : list string :=
  [ "Net Income"; "Total Revenue"; "Operating Income" ].

Definition balance_items_used : list string :=
  [ "Total Assets"; "Total Stockholder Equity"; "Current Assets";
    "Current Liabilities"; "Cash And Cash Equivalents"; "Inventory";
    "Total Debt" ].

(** [d[key]] on a dictionary of numbers. *)
Definition getitem (d : gmap string pynum) (key : string) : result pynum :=
  match d !! key with
  | Some v => ret v
  | None => raise (KeyError key)
  end.

(** [a < b] and [a <= b]: integer comparison on two ints, binary64
    comparison otherwise (false when an operand is NaN). *)
Definition py_lt (a b : pynum) : bool :=
  match a, b with
  | PyInt x, PyInt y => x <? y
  | _, _ => PrimFloat.ltb (to_float a) (to_float b)
  end.

Definition py_le (a b : pynum) : bool :=
  match a, b with
  | PyInt x, PyInt y => x <=? y
  | _, _ => PrimFloat.leb (to_float a) (to_float b)
  end.

(** [a >= b] is [b <= a]. *)
Definition py_ge (a b : pynum) : bool := py_le b a.

(** [min(a, b)] keeps [a] unless [b < a]; [max(a, b)] keeps [a] unless
    [b > a]. *)
Definition py_min (a b : pynum) : pynum := if py_lt b a then b else a.
Definition py_max (a b : pynum) : pynum := if py_lt a b then b else a.

(** What the tab puts on the page: a metric (label, the number that the
    source formats to two decimals, and the suffix), one of the three
    call-outs, or the radar chart with its values and axis names. *)
Inductive Widget : Type :=
  | WMetric (label : string) (value : pynum) (suffix : string)
  | WSuccess (msg : string)
  | WInfo (msg : string)
  | WWarning (msg : string)
  | WRadar (r : list pynum) (theta : list string).

(** Tab 4, from [if ratios:] on. *)
Definition ratio_analysis_tab (ratios : option (gmap string pynum))
    : result (list Widget) :=
  if truthy ratios then
    match ratios with
    | None => ret []
    | Some ratios =>
        (* Profitability Ratios *)
        npm <- getitem ratios "Net Profit Margin" ;;
        roa <- getitem ratios "ROA" ;;
        roe <- getitem ratios "ROE" ;;
        om <- getitem ratios "Operating Margin" ;;
        (* Liquidity Ratios *)
        cr <- getitem ratios "Current Ratio" ;;
        qr <- getitem ratios "Quick Ratio" ;;
        cash <- getitem ratios "Cash Ratio" ;;
        liquidity <-
          (c1 <- getitem ratios "Current Ratio" ;;
           if py_ge c1 (PyFloat 1.5)
           then ret (WSuccess "✅ Strong liquidity position")
           else
             c2 <- getitem ratios "Current Ratio" ;;
             if py_ge c2 (PyFloat 1)
             then ret (WInfo "ℹ️ Adequate liquidity")
             else ret (WWarning "⚠️ Potential liquidity concerns")) ;;
        (* Leverage Ratios *)
        de <- getitem ratios "Debt to Equity" ;;
        da <- getitem ratios "Debt to Assets" ;;
        em <- getitem ratios "Equity Multiplier" ;;
        leverage <-
          (d1 <- getitem ratios "Debt to Equity" ;;
           if py_le d1 (PyFloat 1)
           then ret (WSuccess "✅ Conservative leverage")
           else
             d2 <- getitem ratios "Debt to Equity" ;;
             if py_le d2 (PyFloat 2)
             then ret (WInfo "ℹ️ Moderate leverage")
             else ret (WWarning "⚠️ High leverage - increased risk")) ;;
        (* Efficiency *)
        turnover <- getitem ratios "Asset Turnover" ;;
        (* Normalize ratios for comparison (convert to 0-100 scale) *)
        n_roe <- (x <- getitem ratios "ROE" ;;
                  q <- truediv (py_min x (PyInt 50)) (PyInt 50) ;;
                  ret (mul q (PyInt 100))) ;;
        n_roa <- (x <- getitem ratios "ROA" ;;
                  q <- truediv (py_min x (PyInt 25)) (PyInt 25) ;;
                  ret (mul q (PyInt 100))) ;;
        n_cr <- (x <- getitem ratios "Current Ratio" ;;
                 q <- truediv (py_min x (PyInt 3)) (PyInt 3) ;;
                 ret (mul q (PyInt 100))) ;;
        n_de <- (x <- getitem ratios "Debt to Equity" ;;
                 q <- truediv x (PyInt 2) ;;
                 ret (py_max (PyInt 0) (sub (PyInt 100) (mul q (PyInt 100))))) ;;
        ret [ WMetric "Net Profit Margin" npm "%";
              WMetric "Return on Assets (ROA)" roa "%";
              WMetric "Return on Equity (ROE)" roe "%";
              WMetric "Operating Margin" om "%";
              WMetric "Current Ratio" cr "";
              WMetric "Quick Ratio" qr "";
              WMetric "Cash Ratio" cash "";
              liquidity;
              WMetric "Debt to Equity" de "";
              WMetric "Debt to Assets" da "";
              WMetric "Equity Multiplier" em "";
              leverage;
              WMetric "Asset Turnover" turnover "x";
              WRadar [n_roe; n_roa; n_cr; n_de]
                     ["ROE"; "ROA"; "Current Ratio"; "Debt/Equity"] ]
    end
  else ret [].

(** Sample balance sheets with a zero denominator. *)
Definition balance_no_liabilities : Series :=
  {[ "Current Assets" := 500%float; "Current Liabilities" := 0%float ]}.

Definition balance_no_equity : Series :=
  {[ "Total Debt" := 900%float; "Total Stockholder Equity" := 0%float ]}.

(** Closed forms of the two interpretations and of the chart scores,
    related to the code by [ratio_tab_closed_form] below. *)
Definition liquidity_callout (cr : pynum) : Widget :=
  if py_ge cr (PyFloat 1.5) then WSuccess "✅ Strong liquidity position"
  else if py_ge cr (PyFloat 1) then WInfo "ℹ️ Adequate liquidity"
  else WWarning "⚠️ Potential liquidity concerns".

Definition leverage_callout (de : pynum) : Widget :=
  if py_le de (PyFloat 1) then WSuccess "✅ Conservative leverage"
  else if py_le de (PyFloat 2) then WInfo "ℹ️ Moderate leverage"
  else WWarning "⚠️ High leverage - increased risk".

Definition capped_score (x cap : pynum) : pynum :=
  mul (quotient (py_min x cap) cap) (PyInt 100).

Definition leverage_score (de : pynum) : pynum :=
  py_max (PyInt 0)
         (sub (PyInt 100) (mul (quotient de (PyInt 2)) (PyInt 100))).

Definition ratio_widgets (ratios : gmap string pynum) (d : pynum)
    : list Widget :=
  let v key := default d (ratios !! key) in
  [ WMetric "Net Profit Margin" (v "Net Profit Margin") "%";
    WMetric "Return on Assets (ROA)" (v "ROA") "%";
    WMetric "Return on Equity (ROE)" (v "ROE") "%";
    WMetric "Operating Margin" (v "Operating Margin") "%";
    WMetric "Current Ratio" (v "Current Ratio") "";
    WMetric "Quick Ratio" (v "Quick Ratio") "";
    WMetric "Cash Ratio" (v "Cash Ratio") "";
    liquidity_callout (v "Current Ratio");
    WMetric "Debt to Equity" (v "Debt to Equity") "";
    WMetric "Debt to Assets" (v "Debt to Assets") "";
    WMetric "Equity Multiplier" (v "Equity Multiplier") "";
    leverage_callout (v "Debt to Equity");
    WMetric "Asset Turnover" (v "Asset Turnover") "x";
    WRadar [ capped_score (v "ROE") (PyInt 50);
             capped_score (v "ROA") (PyInt 25);
             capped_score (v "Current Ratio") (PyInt 3);
             leverage_score (v "Debt to Equity") ]
           ["ROE"; "ROA"; "Current Ratio"; "Debt/Equity"] ].

(** A balance sheet with little equity, for a return on equity above
    the cap of the chart. *)
Definition balance_small_equity : Series :=
  {[ "Total Assets" := 1000000000%float;
     "Total Stockholder Equity" := 100000000%float ]}.

(** ** The comparison table and the ROE chart of the peer tab *)

(** [if len(peer_ratios) > 1:], the condition under which the table and
    the chart are drawn. *)
Definition table_shown (tab : PeerTab) : bool :=
  bool_decide (1 < size (peer_ratios tab))%nat.

(** [[peer_ratios[c]['ROE'] for c in companies if peer_ratios[c]]], over
    the items of the dictionary. *)
Fixpoint roe_values (items : list (string * option (gmap string pynum)))
    : result (list pynum) :=
  match items with
  | [] => ret []
  | (_, ratios) :: rest =>
      if truthy ratios then
        match ratios with
        | Some r =>
            v <- getitem r "ROE" ;;
            vs <- roe_values rest ;;
            ret (v :: vs)
        | None => roe_values rest
        end
      else roe_values rest
  end.

Record BarChart : Type := mkBarChart {
  bar_x : list string;
  bar_y : list pynum;
  bar_colors : list string
}.

(** The ROE chart: [x] the companies (the keys of [peer_ratios]), [y] the
    ROE of the companies that have ratios, and one colour per company.
    The dictionary of the source keeps its keys in insertion order; here
    they come in the order of [map_to_list], the same for [x], [y] and
    the colours. *)
Definition roe_chart (ticker_input : string)
    (peer_ratios : gmap string (option (gmap string pynum)))
    : result BarChart :=
  let companies := (map_to_list peer_ratios).*1 in
  roe <- roe_values (map_to_list peer_ratios) ;;
  ret (mkBarChart companies roe
         (map (fun c => if String.eqb c ticker_input
                        then "#3b82f6" else "#94a3b8") companies)).

(** A memoised fetcher with a ticker whose statements come back empty. *)
Definition sample_fetch_empty (ticker : string) : FetchData :=
  if String.eqb ticker "AAPL"
  then FetchOk ∅ [income_1e9] [balance_500] []
  else if String.eqb ticker "EMPTY"
  then FetchOk ∅ [] [] []
  else FetchFailed "unknown ticker".

(** ** Sidebar: the list of peers

    Strings are sequences of bytes; on ASCII text [str_strip],
    [str_upper] and [str_split] are Python's [strip()], [upper()] and
    [split(sep)]. *)

Fixpoint ascii_only (s : string) : Prop :=
  match s with
  | EmptyString => True
  | String c rest => (Ascii.nat_of_ascii c < 128)%nat /\ ascii_only rest
  end.

(** The ASCII characters that [str.isspace] accepts: 9 to 13, 28 to 31
    and the space. *)
Definition py_isspace (c : Ascii.ascii) : bool :=
  let n := Ascii.nat_of_ascii c in
  ((9 <=? n)%nat && (n <=? 13)%nat) || ((28 <=? n)%nat && (n <=? 32)%nat).

(** The character [","]. *)
Definition comma : Ascii.ascii := Ascii.ascii_of_nat 44.

Definition upper_char (c : Ascii.ascii) : Ascii.ascii :=
  let n := Ascii.nat_of_ascii c in
  if ((97 <=? n)%nat && (n <=? 122)%nat)
  then Ascii.ascii_of_nat (n - 32)%nat else c.

Fixpoint str_upper (s : string) : string :=
  match s with
  | EmptyString => EmptyString
  | String c rest => String (upper_char c) (str_upper rest)
  end.

Fixpoint str_lstrip (s : string) : string :=
  match s with
  | EmptyString => EmptyString
  | String c rest => if py_isspace c then str_lstrip rest else s
  end.

Fixpoint str_rstrip (s : string) : string :=
  match s with
  | EmptyString => EmptyString
  | String c rest =>
      match str_rstrip rest with
      | EmptyString => if py_isspace c then EmptyString else String c EmptyString
      | rest' => String c rest'
      end
  end.

Definition str_strip (s : string) : string := str_rstrip (str_lstrip s).

(** [s.split(sep)] for a separator of one character. *)
Fixpoint str_split (sep : Ascii.ascii) (s : string) : list string :=
  match s with
  | EmptyString => [EmptyString]
  | String c rest =>
      if Ascii.eqb c sep then EmptyString :: str_split sep rest
      else match str_split sep rest with
           | piece :: pieces => String c piece :: pieces
           | [] => [String c EmptyString]
           end
  end.

Fixpoint str_contains (c : Ascii.ascii) (s : string) : bool :=
  match s with
  | EmptyString => false
  | String c' rest => Ascii.eqb c' c || str_contains c rest
  end.

(** [[p.strip().upper() for p in peer_input.split(",") if p.strip()]] *)
Definition parse_peers (peer_input : string) : list string :=
  map (fun p => str_upper (str_strip p))
      (filter (fun p => str_strip p ≠ EmptyString) (str_split comma peer_input)).

(** Tickers written one after the other, separated by a comma and a
    space, as in the default value of the input box. *)
Fixpoint comma_separated (tickers : list string) : string :=
  match tickers with
  | [] => EmptyString
  | [t] => t
  | t :: rest => t +:+ ", " +:+ comma_separated rest
  end.

(** A ticker as [parse_peers] gives it: not empty, without comma,
    without white space at either end, without lower-case letter. *)
Definition clean_ticker (t : string) : Prop :=
  t ≠ EmptyString /\ str_contains comma t = false /\
  str_strip t = t /\ str_upper t = t.

Fixpoint ascii_onlyb (s : string) : bool :=
  match s with
  | EmptyString => true
  | String c rest => (Ascii.nat_of_ascii c <? 128)%nat && ascii_onlyb rest
  end.

(** A peer input made of white space and commas only. *)
Fixpoint blank_or_commas (s : string) : Prop :=
  match s with
  | EmptyString => True
  | String c rest => (py_isspace c = true \/ c = comma) /\ blank_or_commas rest
  end.

(** ** Charts over the periods shown (tabs 1 and 5) *)

(** A statement with the labels of its columns: for each column, most
    recent first, the year of its date and the column. *)
Definition LabelledFrame : Type := list (Z * Series).

Definition frame_of (stmt : LabelledFrame) : DataFrame := map snd stmt.

(** All columns have the same row labels, as in every pandas frame. *)
Definition shared_index (stmt : LabelledFrame) : Prop :=
  forall c1 c2 metric, c1 ∈ stmt -> c2 ∈ stmt ->
    is_Some (snd c1 !! metric) -> is_Some (snd c2 !! metric).

(** [metric in stmt.index], for a statement that has a column. *)
Definition in_index (metric : string) (stmt : LabelledFrame) : bool :=
  match stmt with
  | [] => false
  | col :: _ => bool_decide (is_Some (snd col !! metric))
  end.

(** [stmt.loc[metric, col]] *)
Definition loc (metric : string) (col : Z * Series) : result float :=
  match snd col !! metric with
  | Some v => ret v
  | None => raise (KeyError metric)
  end.

(** A list comprehension whose element expression may raise. *)
Fixpoint mapM {A B : Type} (f : A -> result B) (l : list A) : result (list B) :=
  match l with
  | [] => ret []
  | a :: rest =>
      b <- f a ;;
      bs <- mapM f rest ;;
      ret (b :: bs)
  end.

(** [l[:-1]] *)
Definition but_last {A : Type} (l : list A) : list A :=
  take (length l - 1) l.

Definition NameError (name : string) : Exception :=
  mkException "NameError" ("name '" +:+ name +:+ "' is not defined").

(** One trace of a chart: its name, the years on the x axis, the values
    on the y axis. *)
Record Trace : Type := mkTrace {
  trace_name : string;
  trace_x : list Z;
  trace_y : list pynum
}.

(** [stmt.loc[metric, col]/1e9] for the columns shown. *)
Definition in_billions (metric : string) (cols : LabelledFrame)
    : result (list pynum) :=
  mapM (fun col => v <- loc metric col ;;
                   ret (PyFloat (PrimFloat.div v 1000000000)))
       cols.

(** Tab 1, "Revenue & Net Income Trend": the traces added to the figure.
    [years] is bound by the first [if] only; [None] is the unbound
    name. *)
Definition revenue_income_chart (inc_stmt : LabelledFrame) (periods : nat)
    : result (list Trace) :=
  let fig : list Trace := [] in
  bound <-
    (if in_index "Total Revenue" inc_stmt then
       let years := map fst (take periods inc_stmt) in
       revenue <- in_billions "Total Revenue" (take periods inc_stmt) ;;
       ret (Some years, fig ++ [mkTrace "Revenue" years revenue])
     else ret (None, fig)) ;;
  let years : option (list Z) := fst bound in
  let fig := snd bound in
  if in_index "Net Income" inc_stmt then
    net_income <- in_billions "Net Income" (take periods inc_stmt) ;;
    years <- match years with
             | Some years => ret years
             | None => raise (NameError "years")
             end ;;
    ret (fig ++ [mkTrace "Net Income" years net_income])
  else ret fig.

(** [l[i]] *)
Definition getitem_list {A : Type} (l : list A) (i : nat) : result A :=
  match l !! i with
  | Some a => ret a
  | None => raise (mkException "IndexError" "list index out of range")
  end.

(** Tab 5: [[(v[i] - v[i+1]) / v[i+1] * 100 if i < len(v)-1 else 0
    for i in range(len(v))]] on the binary64 cells of the frame (the
    division is the cells' own: no exception, a zero divisor gives an
    infinity or a NaN). *)
Definition revenue_growth (revenue_values : list float) : result (list pynum) :=
  mapM (fun i =>
          if (i <? length revenue_values - 1)%nat then
            a <- getitem_list revenue_values i ;;
            b <- getitem_list revenue_values (i + 1) ;;
            b' <- getitem_list revenue_values (i + 1) ;;
            ret (PyFloat (PrimFloat.mul
                            (PrimFloat.div (PrimFloat.sub a b) b')
                            (float_of_int 100)))
          else ret (PyInt 0))
       (seq 0 (length revenue_values)).

Record GrowthBars : Type := mkGrowthBars {
  growth_x : list Z;
  growth_y : list pynum;
  growth_colors : list string
}.

(** Tab 5, "Year-over-Year Revenue Growth": the bar chart, when it is
    drawn. *)
Definition growth_chart (inc_stmt : LabelledFrame) (periods : nat)
    : result (option GrowthBars) :=
  if negb (df_empty (frame_of inc_stmt)) && (2 <=? length inc_stmt)%nat then
    let years := map fst (take periods inc_stmt) in
    if in_index "Total Revenue" inc_stmt then
      revenue_values <- mapM (loc "Total Revenue") (take periods inc_stmt) ;;
      growth <- revenue_growth revenue_values ;;
      ret (Some (mkGrowthBars
                   (but_last years) (but_last growth)
                   (map (fun g => if py_lt (PyInt 0) g
                                  then "#10b981" else "#ef4444")
                        (but_last growth))))
    else ret None
  else ret None.

(** Sample income statements over three years. *)
Definition income_three_years : LabelledFrame :=
  [ (2023, {[ "Total Revenue" := 300%float; "Net Income" := 30%float ]});
    (2022, {[ "Total Revenue" := 200%float; "Net Income" := 20%float ]});
    (2021, {[ "Total Revenue" := 100%float; "Net Income" := 10%float ]}) ].

Definition income_without_revenue : LabelledFrame :=
  [ (2023, {[ "Net Income" := 30%float ]});
    (2022, {[ "Net Income" := 20%float ]}) ].

(** Tab 1, "Profit Margins Over Time": one group of three bars per
    period drawn. *)
Record MarginGroup : Type := mkMarginGroup {
  group_year : Z;
  group_values : list pynum
}.

(** [(stmt.loc[metric, col] / revenue * 100) if metric in stmt.index
    else 0] *)
Definition margin_of (metric : string) (stmt : LabelledFrame)
    (col : Z * Series) (revenue : pynum) : result pynum :=
  if in_index metric stmt then
    v <- loc metric col ;;
    q <- truediv (PyFloat v) revenue ;;
    ret (mul q (PyInt 100))
  else ret (PyInt 0).

(** The body of [for col in inc_stmt.columns[:periods]:]; the truth
    value of a number is [!= 0]. *)
Fixpoint margins_loop (stmt : LabelledFrame) (cols : LabelledFrame)
    (fig : list MarginGroup) : result (list MarginGroup) :=
  match cols with
  | [] => ret fig
  | col :: rest =>
      revenue <- (if in_index "Total Revenue" stmt
                  then (v <- loc "Total Revenue" col ;; ret (PyFloat v))
                  else ret (PyInt 1)) ;;
      fig <- (if ne0 revenue && ne0 revenue then
                gross_margin <- margin_of "Gross Profit" stmt col revenue ;;
                operating_margin <-
                  margin_of "Operating Income" stmt col revenue ;;
                net_margin <- margin_of "Net Income" stmt col revenue ;;
                ret (fig ++ [mkMarginGroup (fst col)
                               [gross_margin; operating_margin; net_margin]])
              else ret fig) ;;
      margins_loop stmt rest fig
  end.

Definition margins_chart (inc_stmt : LabelledFrame) (periods : nat)
    : result (list MarginGroup) :=
  margins_loop inc_stmt (take periods inc_stmt) [].

(** The revenue a period is divided by: its Total Revenue cell, or 1
    when the statement has no such row. *)
Definition period_revenue (stmt : LabelledFrame) (col : Z * Series) : pynum :=
  if in_index "Total Revenue" stmt then
    match snd col !! "Total Revenue" with
    | Some v => PyFloat v
    | None => PyInt 0
    end
  else PyInt 1.

(** An income statement whose middle year has no revenue. *)
Definition income_gap_year : LabelledFrame :=
  [ (2023, {[ "Total Revenue" := 300%float; "Net Income" := 30%float ]});
    (2022, {[ "Total Revenue" := 0%float; "Net Income" := 20%float ]});
    (2021, {[ "Total Revenue" := 100%float; "Net Income" := 10%float ]}) ].

(** ** The statement tables (tabs 1 to 3) *)

(** A cell of the table: ["N/A"], or the figure in billions that the
    source formats as [$x.xxB]. *)
Inductive Cell : Type :=
  | CellNA
  | CellBillions (v : float).

(** [f"${value/1e9:.2f}B" if value else "N/A"]: a binary64 cell is false
    when it is zero, and true otherwise (a NaN is true). *)
Definition display_cell (value : float) : Cell :=
  if negb (PrimFloat.eqb value PrimFloat.zero)
  then CellBillions (PrimFloat.div value 1000000000)
  else CellNA.

(** The body of [for col in stmt.columns[:periods]:], on the dictionary
    [row_data] keyed by the year. *)
Fixpoint display_row (metric : string) (cols : LabelledFrame)
    (row_data : gmap Z Cell) : result (gmap Z Cell) :=
  match cols with
  | [] => ret row_data
  | col :: rest =>
      let year := fst col in
      value <- loc metric col ;;
      display_row metric rest (<[year := display_cell value]> row_data)
  end.

(** [display_data], one row per key metric found in the index. *)
Fixpoint display_data (key_metrics : list string) (stmt : LabelledFrame)
    (periods : nat) : result (list (string * gmap Z Cell)) :=
  match key_metrics with
  | [] => ret []
  | metric :: rest =>
      if in_index metric stmt then
        row_data <- display_row metric (take periods stmt) ∅ ;;
        rows <- display_data rest stmt periods ;;
        ret ((metric, row_data) :: rows)
      else display_data rest stmt periods
  end.

Definition key_metrics : list string :=
  [ "Total Revenue"; "Cost Of Revenue"; "Gross Profit"; "Operating Income";
    "EBIT"; "Net Income" ].

Definition key_bs_metrics : list string :=
  [ "Total Assets"; "Current Assets"; "Cash And Cash Equivalents";
    "Total Liabilities Net Minority Interest"; "Current Liabilities";
    "Total Debt"; "Total Stockholder Equity" ].

Definition key_cf_metrics : list string :=
  [ "Operating Cash Flow"; "Investing Cash Flow"; "Financing Cash Flow";
    "Free Cash Flow"; "Capital Expenditure" ].

(** ** Two properties in the wording of the specification *)

(** A number that is defined: an [int], or a float that is neither a NaN
    nor an infinity. *)
Definition defined_number (v : pynum) : bool :=
  match v with
  | PyInt _ => true
  | PyFloat f => PrimFloat.is_finite f
  end.



(** An income statement with a revenue of 1 and a Net Income of 2^1023,
    the order of the largest binary64 floats. *)
Definition income_huge : Series :=
  {[ "Total Revenue" := 1%float; "Net Income" := 0x1p+1023%float ]}.

(** Every listed peer whose fetch succeeded is included in the
    comparison table: it has a cell in each of the five rows. *)
Definition succeeded_peers_have_columns (fetch : string -> FetchData)
    (ticker_input : string) (peers : list string) : Prop :=
  forall tab peer ratio_name,
    dashboard fetch ticker_input peers = PeerTable tab ->
    peer ∈ peers ->
    success (fetch peer) = true ->
    ratio_name ∈ key_ratios ->
    is_Some (comparison_row (peer_ratios tab) ratio_name !! peer).

(** * Properties *)

(** ** The ratio engine in closed form *)

Lemma truediv_ne0 (n d : pynum) :
  ne0 d = true -> truediv n d = ret (quotient n d).
Proof. intros H. unfold truediv. now rewrite H. Qed.

Lemma guarded_code (n d : pynum) :
  (if ne0 d then truediv n d else ret (PyInt 0)) = ret (guarded n d).
Proof.
  unfold guarded. destruct (ne0 d) eqn:E; [now apply truediv_ne0 | reflexivity].
Qed.

Lemma guarded_pct_code (n d : pynum) :
  (if ne0 d then (q <- truediv n d ;; ret (mul q (PyInt 100)))
   else ret (PyInt 0)) = ret (guarded_pct n d).
Proof.
  unfold guarded_pct. destruct (ne0 d) eqn:E; [|reflexivity].
  now rewrite (truediv_ne0 n d E).
Qed.

Lemma df_empty_cons_false (col : Series) (rest : DataFrame) :
  df_empty (col :: rest) = false <-> col ≠ ∅.
Proof.
  simpl. rewrite bool_decide_eq_false. now rewrite map_size_empty_iff.
Qed.

Lemma df_empty_false_inv (df : DataFrame) :
  df_empty df = false -> exists col rest, df = col :: rest /\ col ≠ ∅.
Proof.
  destruct df as [|col rest]; [discriminate|].
  intros H. exists col, rest. split; [reflexivity|].
  now apply df_empty_cons_false in H.
Qed.

Lemma latest_cf_ok (cf : DataFrame) :
  exists o, (if negb (df_empty cf)
             then (c <- iloc_col0 cf ;; ret (Some c))
             else ret None) = ret o.
Proof.
  destruct cf as [|c rest]; simpl; [now exists None|].
  destruct (bool_decide (size c = 0%nat)); simpl; eauto.
Qed.

Lemma calculate_ratios_try_nonempty info (latest_inc : Series) inc
    (latest_bs : Series) bs cf :
  df_empty (latest_inc :: inc) = false ->
  df_empty (latest_bs :: bs) = false ->
  calculate_ratios_try (FetchOk info (latest_inc :: inc) (latest_bs :: bs) cf)
  = ret (Some (ratios_of latest_inc latest_bs)).
Proof.
  intros Hinc Hbs. unfold calculate_ratios_try.
  cbn [getitem_frame String.eqb Ascii.eqb Bool.eqb bind ret].
  rewrite Hinc, Hbs. cbn [orb iloc_col0 bind ret].
  destruct (latest_cf_ok cf) as [o ->]. cbn [bind ret].
  rewrite !guarded_pct_code, !guarded_code. reflexivity.
Qed.

Lemma calculate_ratios_nonempty info (latest_inc : Series) inc
    (latest_bs : Series) bs cf :
  df_empty (latest_inc :: inc) = false ->
  df_empty (latest_bs :: bs) = false ->
  calculate_ratios (FetchOk info (latest_inc :: inc) (latest_bs :: bs) cf)
  = (Some (ratios_of latest_inc latest_bs), []).
Proof.
  intros Hinc Hbs. unfold calculate_ratios.
  now rewrite calculate_ratios_try_nonempty.
Qed.

Lemma calculate_ratios_try_empty info inc bs cf :
  df_empty bs || df_empty inc = true ->
  calculate_ratios_try (FetchOk info inc bs cf) = ret None.
Proof.
  intros H. unfold calculate_ratios_try.
  cbn [getitem_frame String.eqb Ascii.eqb Bool.eqb bind ret].
  now rewrite H.
Qed.

Lemma calculate_ratios_empty info inc bs cf :
  df_empty bs || df_empty inc = true ->
  calculate_ratios (FetchOk info inc bs cf) = (None, []).
Proof.
  intros H. unfold calculate_ratios. now rewrite calculate_ratios_try_empty.
Qed.

Lemma calculate_ratios_failed error :
  calculate_ratios (FetchFailed error)
  = (None, [StError "Error calculating ratios: 'balance_sheet'"]).
Proof. reflexivity. Qed.

(** Every way [calculate_ratios] has of returning a ratio table. *)
Lemma calculate_ratios_Some_inv data ratios ui :
  calculate_ratios data = (Some ratios, ui) ->
  exists info (latest_inc : Series) inc
         (latest_bs : Series) bs cf,
    data = FetchOk info (latest_inc :: inc) (latest_bs :: bs) cf /\
    df_empty (latest_inc :: inc) = false /\
    df_empty (latest_bs :: bs) = false /\
    ratios = ratios_of latest_inc latest_bs /\ ui = [].
Proof.
  destruct data as [info inc bs cf|error]; [|discriminate].
  destruct (df_empty bs) eqn:Hbs.
  { rewrite calculate_ratios_empty by now rewrite Hbs. discriminate. }
  destruct (df_empty inc) eqn:Hinc.
  { rewrite calculate_ratios_empty by (rewrite Hinc; apply orb_true_r).
    discriminate. }
  destruct (df_empty_false_inv _ Hbs) as (lb & bs' & -> & _).
  destruct (df_empty_false_inv _ Hinc) as (li & inc' & -> & _).
  rewrite calculate_ratios_nonempty by assumption.
  intros [= <- <-]. now exists info, li, inc', lb, bs', cf.
Qed.

(** ** Reading the ratio table *)

Ltac ratio_lookup :=
  intros; unfold ratios_of; cbv zeta;
  rewrite ?lookup_insert_ne by (intros ?; discriminate);
  apply lookup_insert_eq.

Section RatioLookup.
Variables latest_inc latest_bs : Series.

Let net_income := series_get latest_inc "Net Income" (PyInt 0).
Let revenue := series_get latest_inc "Total Revenue" (PyInt 1).
Let total_assets := series_get latest_bs "Total Assets" (PyInt 1).
Let total_equity := series_get latest_bs "Total Stockholder Equity" (PyInt 1).
Let current_assets := series_get latest_bs "Current Assets" (PyInt 0).
Let current_liabilities := series_get latest_bs "Current Liabilities" (PyInt 1).
Let cash := series_get latest_bs "Cash And Cash Equivalents" (PyInt 0).
Let inventory := series_get latest_bs "Inventory" (PyInt 0).
Let total_debt := series_get latest_bs "Total Debt" (PyInt 0).
Let operating_income := series_get latest_inc "Operating Income" (PyInt 0).

Lemma lookup_net_profit_margin :
  ratios_of latest_inc latest_bs !! "Net Profit Margin"
  = Some (guarded_pct net_income revenue).
Proof. ratio_lookup. Qed.

Lemma lookup_roa :
  ratios_of latest_inc latest_bs !! "ROA"
  = Some (guarded_pct net_income total_assets).
Proof. ratio_lookup. Qed.

Lemma lookup_roe :
  ratios_of latest_inc latest_bs !! "ROE"
  = Some (guarded_pct net_income total_equity).
Proof. ratio_lookup. Qed.

Lemma lookup_current_ratio :
  ratios_of latest_inc latest_bs !! "Current Ratio"
  = Some (guarded current_assets current_liabilities).
Proof. ratio_lookup. Qed.

Lemma lookup_quick_ratio :
  ratios_of latest_inc latest_bs !! "Quick Ratio"
  = Some (guarded (sub current_assets inventory) current_liabilities).
Proof. ratio_lookup. Qed.

Lemma lookup_cash_ratio :
  ratios_of latest_inc latest_bs !! "Cash Ratio"
  = Some (guarded cash current_liabilities).
Proof. ratio_lookup. Qed.

Lemma lookup_debt_to_equity :
  ratios_of latest_inc latest_bs !! "Debt to Equity"
  = Some (guarded total_debt total_equity).
Proof. ratio_lookup. Qed.

Lemma lookup_debt_to_assets :
  ratios_of latest_inc latest_bs !! "Debt to Assets"
  = Some (guarded total_debt total_assets).
Proof. ratio_lookup. Qed.

Lemma lookup_equity_multiplier :
  ratios_of latest_inc latest_bs !! "Equity Multiplier"
  = Some (guarded total_assets total_equity).
Proof. ratio_lookup. Qed.

Lemma lookup_asset_turnover :
  ratios_of latest_inc latest_bs !! "Asset Turnover"
  = Some (guarded revenue total_assets).
Proof. ratio_lookup. Qed.

Lemma lookup_operating_margin :
  ratios_of latest_inc latest_bs !! "Operating Margin"
  = Some (guarded_pct operating_income revenue).
Proof. ratio_lookup. Qed.

End RatioLookup.

Lemma series_get_Some (col : Series) key default f :
  col !! key = Some f -> series_get col key default = PyFloat f.
Proof. intros H. unfold series_get. now rewrite H. Qed.


(** ** Insufficient data *)

(** C3: when the income statement is empty or the balance sheet is
    empty, [calculate_ratios] returns [None] and shows nothing, whatever
    the metadata, the other statement and the cash-flow statement hold. *)
Theorem empty_statement_gives_None info inc bs cf :
  df_empty inc = true \/ df_empty bs = true ->
  calculate_ratios (FetchOk info inc bs cf) = (None, []).
Proof.
  intros [H|H]; apply calculate_ratios_empty; rewrite H;
    [apply orb_true_r | reflexivity].
Qed.

Lemma empty_statement_gives_None_witness :
  calculate_ratios
    (FetchOk ∅ [ {[ "Net Income" := 5%float ]} ] [] []) = (None, []).
Proof.
  apply (empty_statement_gives_None ∅ [ {[ "Net Income" := 5%float ]} ] [] []).
  right. reflexivity.
Defined.

(** ** Independence from the cash-flow statement *)

(** C9: two statement sets with the same income statement and the same
    balance sheet give the same result, whatever their cash-flow
    statements (and metadata) are. *)
Theorem cash_flow_not_used info info' inc bs cf cf' :
  calculate_ratios (FetchOk info inc bs cf)
  = calculate_ratios (FetchOk info' inc bs cf').
Proof.
  destruct (df_empty bs || df_empty inc) eqn:E.
  - now rewrite !calculate_ratios_empty.
  - apply orb_false_elim in E as [Hbs Hinc].
    destruct (df_empty_false_inv _ Hbs) as (lb & bs' & -> & _).
    destruct (df_empty_false_inv _ Hinc) as (li & inc' & -> & _).
    now rewrite !calculate_ratios_nonempty.
Qed.

(** ** Zero denominators *)

Lemma guarded_zero n f :
  PrimFloat.eqb f PrimFloat.zero = true -> guarded n (PyFloat f) = PyInt 0.
Proof. intros H. unfold guarded. cbn [ne0]. now rewrite H. Qed.

Lemma guarded_pct_zero n f :
  PrimFloat.eqb f PrimFloat.zero = true -> guarded_pct n (PyFloat f) = PyInt 0.
Proof. intros H. unfold guarded_pct. cbn [ne0]. now rewrite H. Qed.

Lemma df_empty_cons_lookup (col : Series) rest key f :
  col !! key = Some f -> df_empty (col :: rest) = false.
Proof.
  intros H. apply df_empty_cons_false. intros ->.
  rewrite lookup_empty in H. discriminate.
Qed.

(** C2: on a statement set with non-empty income statement and balance
    sheet the [try] block raises nothing (no division by zero is ever
    performed) and no error is shown; every ratio whose denominator line
    item is zero is the integer 0, which is no NaN; in particular a zero
    Total Revenue gives Net Profit Margin 0 and Operating Margin 0. *)
Theorem zero_denominator_gives_zero info inc bs cf :
  df_empty inc = false ->
  df_empty bs = false ->
  exists (latest_inc latest_bs : Series) ratios,
    head inc = Some latest_inc /\ head bs = Some latest_bs /\
    calculate_ratios_try (FetchOk info inc bs cf) = ret (Some ratios) /\
    calculate_ratios (FetchOk info inc bs cf) = (Some ratios, []) /\
    (forall ratio st item,
       (ratio, (st, item)) ∈ ratio_denominator ->
       zero_item (column_of st latest_inc latest_bs) item ->
       ratios !! ratio = Some (PyInt 0) /\ is_nan (PyInt 0) = false) /\
    (zero_item latest_inc "Total Revenue" ->
       ratios !! "Net Profit Margin" = Some (PyInt 0) /\
       ratios !! "Operating Margin" = Some (PyInt 0)).
Proof.
  intros Hinc Hbs.
  destruct (df_empty_false_inv _ Hbs) as (lb & bs' & -> & _).
  destruct (df_empty_false_inv _ Hinc) as (li & inc' & -> & _).
  exists li, lb, (ratios_of li lb).
  split; [reflexivity|]. split; [reflexivity|].
  split; [now apply calculate_ratios_try_nonempty|].
  split; [now apply calculate_ratios_nonempty|].
  split.
  - intros ratio st item Hin (f & Hf & Hz). split; [|reflexivity].
    unfold ratio_denominator in Hin.
    repeat (apply elem_of_cons in Hin as [Hin|Hin];
            [injection Hin as -> -> ->; cbn [column_of] in Hf|]).
    + rewrite lookup_net_profit_margin, (series_get_Some _ _ _ _ Hf).
      now rewrite guarded_pct_zero.
    + rewrite lookup_roa, (series_get_Some _ _ _ _ Hf).
      now rewrite guarded_pct_zero.
    + rewrite lookup_roe, (series_get_Some _ _ _ _ Hf).
      now rewrite guarded_pct_zero.
    + rewrite lookup_current_ratio, (series_get_Some _ _ _ _ Hf).
      now rewrite guarded_zero.
    + rewrite lookup_quick_ratio, (series_get_Some _ "Current Liabilities" _ _ Hf).
      now rewrite guarded_zero.
    + rewrite lookup_cash_ratio, (series_get_Some _ "Current Liabilities" _ _ Hf).
      now rewrite guarded_zero.
    + rewrite lookup_debt_to_equity, (series_get_Some _ "Total Stockholder Equity" _ _ Hf).
      now rewrite guarded_zero.
    + rewrite lookup_debt_to_assets, (series_get_Some _ "Total Assets" _ _ Hf).
      now rewrite guarded_zero.
    + rewrite lookup_equity_multiplier, (series_get_Some _ "Total Stockholder Equity" _ _ Hf).
      now rewrite guarded_zero.
    + rewrite lookup_asset_turnover, (series_get_Some _ "Total Assets" _ _ Hf).
      now rewrite guarded_zero.
    + rewrite lookup_operating_margin, (series_get_Some _ "Total Revenue" _ _ Hf).
      now rewrite guarded_pct_zero.
    + now apply elem_of_nil in Hin.
  - intros (f & Hf & Hz).
    rewrite lookup_net_profit_margin, lookup_operating_margin.
    rewrite (series_get_Some _ "Total Revenue" _ _ Hf).
    now rewrite !guarded_pct_zero.
Qed.

Lemma zero_denominator_gives_zero_witness :
  exists (latest_inc latest_bs : Series) ratios,
    head [income_no_revenue] = Some latest_inc /\
    head [balance_500] = Some latest_bs /\
    calculate_ratios_try (FetchOk ∅ [income_no_revenue] [balance_500] [])
    = ret (Some ratios) /\
    calculate_ratios (FetchOk ∅ [income_no_revenue] [balance_500] [])
    = (Some ratios, []) /\
    (forall ratio st item,
       (ratio, (st, item)) ∈ ratio_denominator ->
       zero_item (column_of st latest_inc latest_bs) item ->
       ratios !! ratio = Some (PyInt 0) /\ is_nan (PyInt 0) = false) /\
    (zero_item latest_inc "Total Revenue" ->
       ratios !! "Net Profit Margin" = Some (PyInt 0) /\
       ratios !! "Operating Margin" = Some (PyInt 0)).
Proof.
  apply (zero_denominator_gives_zero ∅ [income_no_revenue] [balance_500] []);
    reflexivity.
Defined.

(** ** The two worked examples *)

(** C4, as the code has it: with Total Revenue 1,000,000,000 and Net
    Income 100,000,000 in the most recent income-statement column, and a
    balance sheet that is not empty, Net Profit Margin is the float
    10.0. *)
Theorem net_profit_margin_example info (latest_inc : Series)
    inc bs cf :
  latest_inc !! "Total Revenue" = Some 1000000000%float ->
  latest_inc !! "Net Income" = Some 100000000%float ->
  df_empty bs = false ->
  exists ratios,
    calculate_ratios (FetchOk info (latest_inc :: inc) bs cf)
    = (Some ratios, []) /\
    ratios !! "Net Profit Margin" = Some (PyFloat 10).
Proof.
  intros Hrev Hni Hbs.
  destruct (df_empty_false_inv _ Hbs) as (lb & bs' & -> & _).
  exists (ratios_of latest_inc lb). split.
  - apply calculate_ratios_nonempty; [|assumption].
    now apply (df_empty_cons_lookup _ _ _ _ Hrev).
  - rewrite lookup_net_profit_margin.
    rewrite (series_get_Some _ _ _ _ Hrev), (series_get_Some _ _ _ _ Hni).
    reflexivity.
Qed.

Lemma net_profit_margin_example_witness :
  exists ratios,
    calculate_ratios (FetchOk ∅ [income_1e9] [balance_500] [])
    = (Some ratios, []) /\
    ratios !! "Net Profit Margin" = Some (PyFloat 10).
Proof.
  apply (net_profit_margin_example ∅ income_1e9 [] [balance_500] []);
    reflexivity.
Defined.

(** C4, as stated, fails when the balance sheet is empty: the income
    statement holds the two figures, and there is no ratio table. *)
Lemma net_profit_margin_needs_balance_sheet :
  income_1e9 !! "Total Revenue" = Some 1000000000%float /\
  income_1e9 !! "Net Income" = Some 100000000%float /\
  calculate_ratios (FetchOk ∅ [income_1e9] [] []) = (None, []) /\
  ~ net_profit_margin_is_10 (FetchOk ∅ [income_1e9] [] []).
Proof.
  split; [reflexivity|]. split; [reflexivity|].
  split; [now apply calculate_ratios_empty|].
  intros (ratios & H & _).
  rewrite calculate_ratios_empty in H by reflexivity. discriminate H.
Qed.

(** C5, as the code has it: with Current Assets 500, Inventory 200 and
    Current Liabilities 250 in the most recent balance-sheet column, and
    an income statement that is not empty, Current Ratio is the float
    2.0 and Quick Ratio the float 1.2 (the binary64 number nearest to
    it). *)
Theorem liquidity_example info inc (latest_bs : Series) bs cf :
  latest_bs !! "Current Assets" = Some 500%float ->
  latest_bs !! "Inventory" = Some 200%float ->
  latest_bs !! "Current Liabilities" = Some 250%float ->
  df_empty inc = false ->
  exists ratios,
    calculate_ratios (FetchOk info inc (latest_bs :: bs) cf)
    = (Some ratios, []) /\
    ratios !! "Current Ratio" = Some (PyFloat 2) /\
    ratios !! "Quick Ratio" = Some (PyFloat 0x1.3333333333333p+0).
Proof.
  intros Hca Hinv Hcl Hinc.
  destruct (df_empty_false_inv _ Hinc) as (li & inc' & -> & _).
  exists (ratios_of li latest_bs). split; [|split].
  - apply calculate_ratios_nonempty; [assumption|].
    now apply (df_empty_cons_lookup _ _ _ _ Hca).
  - rewrite lookup_current_ratio.
    rewrite (series_get_Some _ _ _ _ Hca), (series_get_Some _ _ _ _ Hcl).
    reflexivity.
  - rewrite lookup_quick_ratio.
    rewrite (series_get_Some _ _ _ _ Hca), (series_get_Some _ _ _ _ Hcl),
      (series_get_Some _ _ _ _ Hinv).
    reflexivity.
Qed.

Lemma liquidity_example_witness :
  exists ratios,
    calculate_ratios (FetchOk ∅ [income_1e9] [balance_500] [])
    = (Some ratios, []) /\
    ratios !! "Current Ratio" = Some (PyFloat 2) /\
    ratios !! "Quick Ratio" = Some (PyFloat 0x1.3333333333333p+0).
Proof.
  apply (liquidity_example ∅ [income_1e9] balance_500 [] []); reflexivity.
Defined.

(** C5, as stated, fails when the income statement is empty. *)
Lemma liquidity_needs_income_statement :
  balance_500 !! "Current Assets" = Some 500%float /\
  balance_500 !! "Inventory" = Some 200%float /\
  balance_500 !! "Current Liabilities" = Some 250%float /\
  calculate_ratios (FetchOk ∅ [] [balance_500] []) = (None, []) /\
  ~ liquidity_is_2_and_1_2 (FetchOk ∅ [] [balance_500] []).
Proof.
  split; [reflexivity|]. split; [reflexivity|]. split; [reflexivity|].
  split; [apply calculate_ratios_empty; apply orb_true_r|].
  intros (ratios & H & _).
  rewrite calculate_ratios_empty in H by apply orb_true_r. discriminate H.
Qed.

(** ** Absent line items *)










(** ** The fetcher *)

Section FetcherProperties.

Variable yf_Ticker : nat -> string -> result yf.Ticker.

Lemma fetch_fn_raises n ticker e :
  provider_raises yf_Ticker n ticker e ->
  fetch_financial_data_fn yf_Ticker n ticker = ret (FetchFailed (exc_str e)).
Proof.
  unfold fetch_financial_data_fn.
  intros [H|stock H Hi|stock i H Hi Hf|stock i inc H Hi Hf Hb
         |stock i inc bs H Hi Hf Hb Hc];
    rewrite H; cbn [bind]; rewrite ?Hi; cbn [bind]; rewrite ?Hf; cbn [bind];
    rewrite ?Hb; cbn [bind]; rewrite ?Hc; reflexivity.
Qed.

Lemma fetch_fn_answers n ticker i inc bs cf :
  provider_answers yf_Ticker n ticker i inc bs cf ->
  fetch_financial_data_fn yf_Ticker n ticker = ret (FetchOk i inc bs cf).
Proof.
  intros (stock & H & Hi & Hf & Hb & Hc). unfold fetch_financial_data_fn.
  rewrite H; cbn [bind]. now rewrite Hi, Hf, Hb, Hc.
Qed.

Lemma provider_total n ticker :
  (exists e, provider_raises yf_Ticker n ticker e) \/
  (exists i inc bs cf, provider_answers yf_Ticker n ticker i inc bs cf).
Proof.
  destruct (yf_Ticker n ticker) as [e|stock] eqn:H.
  { left. exists e. now apply raises_Ticker. }
  destruct (yf.info stock) as [e|i] eqn:Hi.
  { left. exists e. now apply (raises_info _ _ _ _ stock). }
  destruct (yf.financials stock) as [e|inc] eqn:Hf.
  { left. exists e. now apply (raises_financials _ _ _ _ stock i). }
  destruct (yf.balance_sheet stock) as [e|bs] eqn:Hb.
  { left. exists e. now apply (raises_balance_sheet _ _ _ _ stock i inc). }
  destruct (yf.cashflow stock) as [e|cf] eqn:Hc.
  { left. exists e. now apply (raises_cashflow _ _ _ _ stock i inc bs). }
  right. exists i, inc, bs, cf, stock. auto.
Qed.

Lemma fetch_fn_returns n ticker :
  exists data, fetch_financial_data_fn yf_Ticker n ticker = ret data.
Proof.
  destruct (provider_total n ticker) as [[e H]|(i & inc & bs & cf & H)].
  - exists (FetchFailed (exc_str e)). now apply fetch_fn_raises.
  - exists (FetchOk i inc bs cf). now apply fetch_fn_answers.
Qed.

Lemma fetch_miss now ticker c :
  cache_get now ticker c = None ->
  exists data,
    fetch_financial_data_fn yf_Ticker (remote_calls c) ticker = ret data /\
    fetch_financial_data yf_Ticker now ticker c
    = (ret data, mkCache (<[ticker := (data, now)]> (entries c))
                         (S (remote_calls c))).
Proof.
  intros Hmiss. destruct (fetch_fn_returns (remote_calls c) ticker) as [data H].
  exists data. split; [assumption|].
  unfold fetch_financial_data, cache_data. now rewrite Hmiss, H.
Qed.

Lemma fetch_hit now ticker c data :
  cache_get now ticker c = Some data ->
  fetch_financial_data yf_Ticker now ticker c = (ret data, c).
Proof.
  intros Hhit. unfold fetch_financial_data, cache_data. now rewrite Hhit.
Qed.

(** C6: [fetch_financial_data] returns a record to its caller at every
    ticker, time and cache state, and raises nothing; when the call goes
    to the provider and the provider fails with [e], the record is the
    failure record with the text [str(e)]; when the provider answers,
    it is the success record with the metadata and the three
    statements. *)
Theorem fetch_never_raises (now : Z) (ticker : string) (c : Cache) :
  (exists data c',
     fetch_financial_data yf_Ticker now ticker c = (ret data, c')) /\
  (forall n,
     (exists e, provider_raises yf_Ticker n ticker e /\
                fetch_financial_data_fn yf_Ticker n ticker
                = ret (FetchFailed (exc_str e))) \/
     (exists i inc bs cf, provider_answers yf_Ticker n ticker i inc bs cf /\
                fetch_financial_data_fn yf_Ticker n ticker
                = ret (FetchOk i inc bs cf))) /\
  (cache_get now ticker c = None ->
     (forall e, provider_raises yf_Ticker (remote_calls c) ticker e ->
        fst (fetch_financial_data yf_Ticker now ticker c)
        = ret (FetchFailed (exc_str e))) /\
     (forall i inc bs cf,
        provider_answers yf_Ticker (remote_calls c) ticker i inc bs cf ->
        fst (fetch_financial_data yf_Ticker now ticker c)
        = ret (FetchOk i inc bs cf))).
Proof.
  split; [|split].
  - destruct (cache_get now ticker c) as [data|] eqn:Hget.
    + exists data, c. now apply fetch_hit.
    + destruct (fetch_miss now ticker c Hget) as (data & _ & H). eauto.
  - intros n.
    destruct (provider_total n ticker) as [[e H]|(i & inc & bs & cf & H)].
    + left. exists e. split; [assumption|]. now apply fetch_fn_raises.
    + right. exists i, inc, bs, cf. split; [assumption|].
      now apply fetch_fn_answers.
  - intros Hget.
    destruct (fetch_miss now ticker c Hget) as (data & Hfn & ->). cbn [fst].
    split.
    + intros e H. rewrite <- Hfn. now apply fetch_fn_raises.
    + intros i inc bs cf H. rewrite <- Hfn. now apply fetch_fn_answers.
Qed.

(** *** The cache *)

Lemma entries_other_ticker now ticker ticker' c :
  ticker' ≠ ticker ->
  entries (snd (fetch_financial_data yf_Ticker now ticker' c)) !! ticker
  = entries c !! ticker.
Proof.
  intros Hne. unfold fetch_financial_data, cache_data.
  destruct (cache_get now ticker' c); [reflexivity|].
  destruct (fetch_financial_data_fn _ _ _); cbn [snd entries];
    [reflexivity|]. now apply lookup_insert_ne.
Qed.

Lemma run_calls_other_tickers calls ticker c :
  Forall (fun call : Z * string => snd call ≠ ticker) calls ->
  entries (run_calls yf_Ticker calls c) !! ticker = entries c !! ticker.
Proof.
  intros H. revert c. induction H as [|call calls Hne _ IH]; intros c.
  - reflexivity.
  - unfold run_calls in *. cbn [fold_left]. rewrite IH.
    now apply entries_other_ticker.
Qed.

Lemma cache_get_fresh now stored ticker c data :
  entries c !! ticker = Some (data, stored) ->
  now < stored + ttl ->
  cache_get now ticker c = Some data.
Proof.
  intros He Hlt. unfold cache_get. rewrite He.
  now apply Z.ltb_lt in Hlt as ->.
Qed.

(** C8: after a successful call that went to the provider at time [t0],
    a call for the same ticker at a time [t1] within 3600 seconds of it
    (calls for other tickers may come in between) returns the cached
    record and leaves the cache and the count of remote calls as they
    are. *)
Theorem second_fetch_is_cached (c c1 : Cache) (t0 t1 : Z) (ticker : string)
    (data : FetchData) (others : list (Z * string)) :
  cache_get t0 ticker c = None ->
  fetch_financial_data yf_Ticker t0 ticker c = (ret data, c1) ->
  success data = true ->
  t0 <= t1 < t0 + 3600 ->
  Forall (fun call : Z * string => snd call ≠ ticker) others ->
  remote_calls c1 = S (remote_calls c) /\
  fetch_financial_data yf_Ticker t1 ticker (run_calls yf_Ticker others c1)
  = (ret data, run_calls yf_Ticker others c1).
Proof.
  intros Hmiss Hfirst _ [_ Hlt] Hothers.
  destruct (fetch_miss t0 ticker c Hmiss) as (data' & _ & H).
  rewrite H in Hfirst. injection Hfirst as -> <-.
  split; [reflexivity|].
  apply fetch_hit, (cache_get_fresh _ t0); [|exact Hlt].
  rewrite (run_calls_other_tickers _ _ _ Hothers). cbn [entries].
  apply lookup_insert_eq.
Qed.

End FetcherProperties.

Lemma fetch_never_raises_witness :
  exists data c',
    fetch_financial_data sample_provider 0 "MSFT" empty_cache = (ret data, c').
Proof.
  apply (fetch_never_raises sample_provider 0 "MSFT" empty_cache).
Defined.

Lemma second_fetch_is_cached_witness :
  remote_calls
    (snd (fetch_financial_data sample_provider 0 "AAPL" empty_cache))
  = 1%nat /\
  fetch_financial_data sample_provider 3599 "AAPL"
    (run_calls sample_provider [(10, "MSFT")]
       (snd (fetch_financial_data sample_provider 0 "AAPL" empty_cache)))
  = (ret (FetchOk ∅ [income_1e9] [balance_500] []),
     run_calls sample_provider [(10, "MSFT")]
       (snd (fetch_financial_data sample_provider 0 "AAPL" empty_cache))).
Proof.
  apply (second_fetch_is_cached sample_provider empty_cache
           (snd (fetch_financial_data sample_provider 0 "AAPL" empty_cache))
           0 3599 "AAPL" (FetchOk ∅ [income_1e9] [balance_500] [])
           [(10, "MSFT")]).
  - reflexivity.
  - reflexivity.
  - reflexivity.
  - lia.
  - repeat constructor. discriminate.
Defined.

(** ** The peer loop *)

Lemma calculate_ratios_success_quiet data :
  success data = true -> snd (calculate_ratios data) = [].
Proof.
  destruct data as [info inc bs cf|error]; [intros _|discriminate].
  destruct (df_empty bs || df_empty inc) eqn:E.
  - now rewrite calculate_ratios_empty.
  - apply orb_false_elim in E as [Hbs Hinc].
    destruct (df_empty_false_inv _ Hbs) as (lb & bs' & -> & _).
    destruct (df_empty_false_inv _ Hinc) as (li & inc' & -> & _).
    now rewrite calculate_ratios_nonempty.
Qed.

Lemma comparison_row_absent
    (pr : gmap string (option (gmap string pynum))) ratio_name company :
  pr !! company = None -> comparison_row pr ratio_name !! company = None.
Proof. intros H. unfold comparison_row. now rewrite lookup_omap, H. Qed.

Section DashboardProperties.

Variable fetch : string -> FetchData.

Lemma peer_step_failed acc peer :
  success (fetch peer) = false -> peer_step fetch acc peer = acc.
Proof. intros H. unfold peer_step. now rewrite H. Qed.

Lemma peer_step_succeeded acc peer :
  success (fetch peer) = true ->
  peer_step fetch acc peer
  = mkPeerTab (<[peer := fst (calculate_ratios (fetch peer))]> (peer_ratios acc))
              (shown acc).
Proof.
  intros H. unfold peer_step. rewrite H.
  pose proof (calculate_ratios_success_quiet _ H) as Hq.
  destruct (calculate_ratios (fetch peer)) as [ratios ev].
  cbn [fst snd] in *. subst ev. now rewrite app_nil_r.
Qed.

Lemma peer_loop_cons peer peers acc :
  peer_loop fetch (peer :: peers) acc
  = peer_loop fetch peers (peer_step fetch acc peer).
Proof. reflexivity. Qed.

Lemma peer_loop_shown peers acc :
  shown (peer_loop fetch peers acc) = shown acc.
Proof.
  revert acc. induction peers as [|peer peers IH]; intros acc; [reflexivity|].
  rewrite peer_loop_cons, IH.
  destruct (success (fetch peer)) eqn:H.
  - now rewrite peer_step_succeeded.
  - now rewrite peer_step_failed.
Qed.

(** The dictionary after the loop, key by key. *)
Lemma peer_loop_lookup peers acc company :
  peer_ratios (peer_loop fetch peers acc) !! company
  = if decide (company ∈ peers /\ success (fetch company) = true)
    then Some (fst (calculate_ratios (fetch company)))
    else peer_ratios acc !! company.
Proof.
  revert acc. induction peers as [|peer peers IH]; intros acc.
  - case_decide as H; [|reflexivity].
    destruct H as [H _]. now apply elem_of_nil in H.
  - rewrite peer_loop_cons, IH.
    destruct (decide (company ∈ peers /\ success (fetch company) = true))
      as [[Hin Hs]|Hno].
    + rewrite decide_True; [reflexivity|]. split; [now right|assumption].
    + destruct (success (fetch peer)) eqn:Hp.
      * rewrite peer_step_succeeded by assumption. cbn [peer_ratios].
        destruct (decide (peer = company)) as [->|Hne].
        -- rewrite lookup_insert_eq, decide_True; [reflexivity|].
           split; [now left|assumption].
        -- rewrite lookup_insert_ne by assumption.
           rewrite decide_False; [reflexivity|].
           intros [Hin Hs]. apply elem_of_cons in Hin as [->|Hin];
             [now apply Hne | now apply Hno].
      * rewrite peer_step_failed by assumption.
        rewrite decide_False; [reflexivity|].
        intros [Hin Hs]. apply elem_of_cons in Hin as [->|Hin];
          [congruence | now apply Hno].
Qed.

(** Peers whose fetch failed leave no trace in the loop. *)
Lemma peer_loop_filter peers acc :
  peer_loop fetch peers acc
  = peer_loop fetch (filter (fun peer => success (fetch peer) = true) peers) acc.
Proof.
  revert acc. induction peers as [|peer peers IH]; intros acc; [reflexivity|].
  rewrite peer_loop_cons.
  destruct (success (fetch peer)) eqn:H.
  - rewrite filter_cons_True by assumption. now rewrite peer_loop_cons, IH.
  - rewrite filter_cons_False by congruence.
    now rewrite peer_step_failed, IH.
Qed.

(** A run that reaches the peer table: the company's fetch succeeded and
    the tab is what the loop makes of the company's entry. *)
Lemma dashboard_table ticker_input peers tab :
  dashboard fetch ticker_input peers = PeerTable tab ->
  success (fetch ticker_input) = true /\
  tab = peer_loop fetch peers
          (mkPeerTab
             (<[ticker_input := fst (calculate_ratios (fetch ticker_input))]> ∅)
             []).
Proof.
  unfold dashboard. destruct (success (fetch ticker_input)) eqn:Hcompany;
    cbn [negb]; [|discriminate].
  unfold peer_comparison. destruct peers as [|peer0 peers0]; [discriminate|].
  pose proof (calculate_ratios_success_quiet _ Hcompany) as Hq.
  destruct (calculate_ratios (fetch ticker_input)) as [ratios ev].
  cbn [fst snd] in *. subst ev. intros [= <-]. now split.
Qed.

End DashboardProperties.

(** * Further properties of the ratio engine *)

(** X1: on a failure record (no statements in it) [calculate_ratios]
    returns [None] and shows the error of the missing key
    ['balance_sheet'], whatever the error text of the record is. *)
Theorem failure_record_shows_key_error error :
  calculate_ratios_try (FetchFailed error) = raise (KeyError "balance_sheet") /\
  calculate_ratios (FetchFailed error)
  = (None, [StError "Error calculating ratios: 'balance_sheet'"]).
Proof. split; reflexivity. Qed.

(** X2: only the most recent period counts: the older columns of the
    income statement and of the balance sheet (and the cash-flow
    statement and the metadata) do not change the result. *)
Theorem only_latest_period_used info info' (latest_inc latest_bs : Series)
    inc inc' bs bs' cf cf' :
  calculate_ratios (FetchOk info (latest_inc :: inc) (latest_bs :: bs) cf)
  = calculate_ratios (FetchOk info' (latest_inc :: inc') (latest_bs :: bs') cf').
Proof.
  destruct (df_empty (latest_bs :: bs) || df_empty (latest_inc :: inc)) eqn:E.
  - rewrite !calculate_ratios_empty; [reflexivity| exact E | exact E].
  - apply orb_false_elim in E as [Hbs Hinc].
    rewrite !calculate_ratios_nonempty; [reflexivity|..]; assumption.
Qed.

Lemma ratios_of_ext (latest_inc latest_inc' latest_bs latest_bs' : Series) :
  (forall name, name ∈ income_items_used ->
     latest_inc !! name = latest_inc' !! name) ->
  (forall name, name ∈ balance_items_used ->
     latest_bs !! name = latest_bs' !! name) ->
  ratios_of latest_inc latest_bs = ratios_of latest_inc' latest_bs'.
Proof.
  intros Hi Hb. unfold ratios_of, series_get, income_items_used,
    balance_items_used in *.
  rewrite !(Hi "Net Income"), !(Hi "Total Revenue"), !(Hi "Operating Income")
    by (rewrite !elem_of_cons; auto).
  rewrite !(Hb "Total Assets"), !(Hb "Total Stockholder Equity"),
    !(Hb "Current Assets"), !(Hb "Current Liabilities"),
    !(Hb "Cash And Cash Equivalents"), !(Hb "Inventory"), !(Hb "Total Debt")
    by (rewrite !elem_of_cons; auto 10).
  reflexivity.
Qed.

(** X3: the ratios are a function of ten cells: two statement sets with
    non-empty income statements and balance sheets, whose most recent
    columns agree on the three income items and the seven balance-sheet
    items that enter a formula, have the same result. Every other line
    item, "Total Liabilities Net Minority Interest" included, is without
    effect. *)
Theorem ratios_depend_on_ten_items info info'
    (latest_inc latest_inc' latest_bs latest_bs' : Series)
    inc inc' bs bs' cf cf' :
  df_empty (latest_inc :: inc) = false ->
  df_empty (latest_inc' :: inc') = false ->
  df_empty (latest_bs :: bs) = false ->
  df_empty (latest_bs' :: bs') = false ->
  (forall name, name ∈ income_items_used ->
     latest_inc !! name = latest_inc' !! name) ->
  (forall name, name ∈ balance_items_used ->
     latest_bs !! name = latest_bs' !! name) ->
  calculate_ratios (FetchOk info (latest_inc :: inc) (latest_bs :: bs) cf)
  = calculate_ratios (FetchOk info' (latest_inc' :: inc') (latest_bs' :: bs') cf').
Proof.
  intros H1 H2 H3 H4 Hi Hb.
  rewrite !calculate_ratios_nonempty by assumption.
  now rewrite (ratios_of_ext _ _ _ _ Hi Hb).
Qed.

Lemma ratios_depend_on_ten_items_witness :
  calculate_ratios (FetchOk ∅ [income_1e9] [balance_500] [])
  = calculate_ratios
      (FetchOk ∅ [<["EBIT" := 3%float]> income_1e9]
         [<["Total Liabilities Net Minority Interest" := 7%float]> balance_500]
         []).
Proof.
  apply (ratios_depend_on_ten_items ∅ ∅ income_1e9
           (<["EBIT" := 3%float]> income_1e9) balance_500
           (<["Total Liabilities Net Minority Interest" := 7%float]> balance_500)
           [] [] [] [] [] []); try reflexivity.
  - intros name H. rewrite lookup_insert_ne; [reflexivity|].
    intros <-. unfold income_items_used in H.
    rewrite !elem_of_cons, elem_of_nil in H.
    repeat (destruct H as [H|H]; [discriminate H|]). exact H.
  - intros name H. rewrite lookup_insert_ne; [reflexivity|].
    intros <-. unfold balance_items_used in H.
    rewrite !elem_of_cons, elem_of_nil in H.
    repeat (destruct H as [H|H]; [discriminate H|]). exact H.
Defined.

(** * The ratio tab *)

Lemma getitem_Some (d : gmap string pynum) key v :
  d !! key = Some v -> getitem d key = ret v.
Proof. intros H. unfold getitem. now rewrite H. Qed.

Lemma truthy_ratios_of (latest_inc latest_bs : Series) :
  truthy (Some (ratios_of latest_inc latest_bs)) = true.
Proof.
  cbn [truthy]. apply negb_true_iff, bool_decide_eq_false.
  rewrite map_size_empty_iff. intros E.
  pose proof (lookup_roe latest_inc latest_bs) as H.
  rewrite E, lookup_empty in H. discriminate H.
Qed.

Lemma truediv_int_divisor n z :
  z ≠ 0 -> truediv n (PyInt z) = ret (quotient n (PyInt z)).
Proof.
  intros H. apply truediv_ne0. cbn [ne0].
  now apply negb_true_iff, Z.eqb_neq.
Qed.

(** The tab on a dictionary that has the eleven keys. *)
Lemma ratio_tab_full_table (ratios : gmap string pynum) :
  Forall (fun name => is_Some (ratios !! name)) ratio_names ->
  truthy (Some ratios) = true ->
  ratio_analysis_tab (Some ratios) = ret (ratio_widgets ratios (PyInt 0)).
Proof.
  intros Hall Htruthy. unfold ratio_names in Hall.
  repeat (apply Forall_cons in Hall as [[? ?] Hall]).
  unfold ratio_analysis_tab, ratio_widgets, getitem. rewrite Htruthy.
  repeat match goal with H : ratios !! _ = Some _ |- _ => rewrite !H; clear H end.
  cbn [bind ret default].
  rewrite !truediv_int_divisor by discriminate. cbn [bind ret].
  unfold liquidity_callout, leverage_callout.
  destruct (py_ge _ (PyFloat 1.5)); cbn [bind ret];
    [|destruct (py_ge _ (PyFloat 1)); cbn [bind ret]];
    (destruct (py_le _ (PyFloat 1)); cbn [bind ret];
     [|destruct (py_le _ (PyFloat 2)); cbn [bind ret]]);
    reflexivity.
Qed.

Lemma ratios_of_full (latest_inc latest_bs : Series) :
  Forall (fun name => is_Some (ratios_of latest_inc latest_bs !! name))
         ratio_names.
Proof.
  unfold ratio_names. repeat apply Forall_cons_2; [..|apply Forall_nil_2];
    eexists.
  - apply lookup_net_profit_margin.
  - apply lookup_roa.
  - apply lookup_roe.
  - apply lookup_current_ratio.
  - apply lookup_quick_ratio.
  - apply lookup_cash_ratio.
  - apply lookup_debt_to_equity.
  - apply lookup_debt_to_assets.
  - apply lookup_equity_multiplier.
  - apply lookup_asset_turnover.
  - apply lookup_operating_margin.
Qed.

Lemma ratio_tab_closed_form (latest_inc latest_bs : Series) :
  ratio_analysis_tab (Some (ratios_of latest_inc latest_bs))
  = ret (ratio_widgets (ratios_of latest_inc latest_bs) (PyInt 0)).
Proof.
  apply ratio_tab_full_table; [apply ratios_of_full | apply truthy_ratios_of].
Qed.

(** X4: tab 4 never raises: whatever record [calculate_ratios] is given,
    the tab built from its result finds every key it reads; on a ratio
    table it shows fourteen widgets (eleven metrics, two call-outs, the
    radar chart), and on [None] it shows nothing. *)
Theorem ratio_tab_never_raises data :
  exists widgets,
    ratio_analysis_tab (fst (calculate_ratios data)) = ret widgets /\
    match fst (calculate_ratios data) with
    | Some ratios =>
        widgets = ratio_widgets ratios (PyInt 0) /\ length widgets = 14%nat
    | None => widgets = []
    end.
Proof.
  destruct (calculate_ratios data) as [[ratios|] ui] eqn:E; cbn [fst].
  - apply calculate_ratios_Some_inv in E
      as (info & li & inc & lb & bs & cf & _ & _ & _ & -> & _).
    exists (ratio_widgets (ratios_of li lb) (PyInt 0)).
    split; [apply ratio_tab_closed_form|]. split; reflexivity.
  - exists []. split; reflexivity.
Qed.

Lemma zero_item_nonempty (col : Series) rest name :
  zero_item col name -> df_empty (col :: rest) = false.
Proof. intros (f & H & _). now apply (df_empty_cons_lookup _ _ _ _ H). Qed.

(** X5: a most recent Current Liabilities of zero makes the Current Ratio
    the placeholder 0, and tab 4 then reports "Potential liquidity
    concerns", whatever the current assets are. *)
Theorem zero_liabilities_reported_as_concern info (latest_inc : Series) inc
    (latest_bs : Series) bs cf :
  df_empty (latest_inc :: inc) = false ->
  zero_item latest_bs "Current Liabilities" ->
  exists widgets,
    ratio_analysis_tab
      (fst (calculate_ratios
              (FetchOk info (latest_inc :: inc) (latest_bs :: bs) cf)))
    = ret widgets /\
    widgets !! 4%nat = Some (WMetric "Current Ratio" (PyInt 0) "") /\
    widgets !! 7%nat = Some (WWarning "⚠️ Potential liquidity concerns").
Proof.
  intros Hinc Hz. pose proof (zero_item_nonempty _ bs _ Hz) as Hbs.
  destruct Hz as (f & Hf & Hz).
  rewrite calculate_ratios_nonempty by assumption. cbn [fst].
  eexists. split; [apply ratio_tab_closed_form|].
  unfold ratio_widgets. cbn [lookup list_lookup].
  rewrite lookup_current_ratio, (series_get_Some _ "Current Liabilities" _ _ Hf).
  rewrite guarded_zero by assumption. split; reflexivity.
Qed.

Lemma zero_liabilities_reported_as_concern_witness :
  exists widgets,
    ratio_analysis_tab
      (fst (calculate_ratios
              (FetchOk ∅ [income_1e9] [balance_no_liabilities] [])))
    = ret widgets /\
    widgets !! 4%nat = Some (WMetric "Current Ratio" (PyInt 0) "") /\
    widgets !! 7%nat = Some (WWarning "⚠️ Potential liquidity concerns").
Proof.
  apply (zero_liabilities_reported_as_concern ∅ income_1e9 []
           balance_no_liabilities [] []); [reflexivity|].
  exists 0%float. split; reflexivity.
Defined.

(** X6: a most recent Total Stockholder Equity of zero makes Debt to
    Equity the placeholder 0; tab 4 then reports "Conservative leverage"
    and gives the leverage axis of the radar chart its best score,
    100.0, whatever the debt is. *)
Theorem zero_equity_reported_as_conservative info (latest_inc : Series) inc
    (latest_bs : Series) bs cf :
  df_empty (latest_inc :: inc) = false ->
  zero_item latest_bs "Total Stockholder Equity" ->
  exists widgets r,
    ratio_analysis_tab
      (fst (calculate_ratios
              (FetchOk info (latest_inc :: inc) (latest_bs :: bs) cf)))
    = ret widgets /\
    widgets !! 8%nat = Some (WMetric "Debt to Equity" (PyInt 0) "") /\
    widgets !! 11%nat = Some (WSuccess "✅ Conservative leverage") /\
    widgets !! 13%nat
    = Some (WRadar r ["ROE"; "ROA"; "Current Ratio"; "Debt/Equity"]) /\
    r !! 3%nat = Some (PyFloat 100).
Proof.
  intros Hinc Hz. pose proof (zero_item_nonempty _ bs _ Hz) as Hbs.
  destruct Hz as (f & Hf & Hz).
  rewrite calculate_ratios_nonempty by assumption. cbn [fst].
  eexists. eexists. split; [apply ratio_tab_closed_form|].
  unfold ratio_widgets. cbn [lookup list_lookup].
  rewrite lookup_debt_to_equity,
    (series_get_Some _ "Total Stockholder Equity" _ _ Hf).
  rewrite guarded_zero by assumption. repeat split; reflexivity.
Qed.

Lemma zero_equity_reported_as_conservative_witness :
  exists widgets r,
    ratio_analysis_tab
      (fst (calculate_ratios (FetchOk ∅ [income_1e9] [balance_no_equity] [])))
    = ret widgets /\
    widgets !! 8%nat = Some (WMetric "Debt to Equity" (PyInt 0) "") /\
    widgets !! 11%nat = Some (WSuccess "✅ Conservative leverage") /\
    widgets !! 13%nat
    = Some (WRadar r ["ROE"; "ROA"; "Current Ratio"; "Debt/Equity"]) /\
    r !! 3%nat = Some (PyFloat 100).
Proof.
  apply (zero_equity_reported_as_conservative ∅ income_1e9 []
           balance_no_equity [] []); [reflexivity|].
  exists 0%float. split; reflexivity.
Defined.

Lemma capped_score_above x (cap : Z) (c : float) :
  float_of_int cap = c ->
  PrimFloat.ltb c x = true ->
  capped_score (PyFloat x) (PyInt cap)
  = mul (quotient (PyInt cap) (PyInt cap)) (PyInt 100).
Proof.
  intros <- H. unfold capped_score, py_min. cbn [py_lt to_float].
  now rewrite H.
Qed.

(** X7: the radar chart caps its first three axes: a return on equity
    above 50, a return on assets above 25 and a current ratio above 3
    are each drawn at exactly 100.0. *)
Theorem radar_scores_are_capped data ratios ui :
  calculate_ratios data = (Some ratios, ui) ->
  exists widgets r,
    ratio_analysis_tab (Some ratios) = ret widgets /\
    widgets !! 13%nat
    = Some (WRadar r ["ROE"; "ROA"; "Current Ratio"; "Debt/Equity"]) /\
    (forall x, ratios !! "ROE" = Some (PyFloat x) ->
       PrimFloat.ltb 50 x = true -> r !! 0%nat = Some (PyFloat 100)) /\
    (forall x, ratios !! "ROA" = Some (PyFloat x) ->
       PrimFloat.ltb 25 x = true -> r !! 1%nat = Some (PyFloat 100)) /\
    (forall x, ratios !! "Current Ratio" = Some (PyFloat x) ->
       PrimFloat.ltb 3 x = true -> r !! 2%nat = Some (PyFloat 100)).
Proof.
  intros E. apply calculate_ratios_Some_inv in E
    as (info & li & inc & lb & bs & cf & _ & _ & _ & -> & _).
  eexists. eexists. split; [apply ratio_tab_closed_form|].
  unfold ratio_widgets. cbn [lookup list_lookup].
  split; [reflexivity|].
  split; [|split]; intros x Hx Hlt; rewrite Hx;
    cbn [default id lookup list_lookup].
  - now rewrite (capped_score_above x 50 50%float eq_refl Hlt).
  - now rewrite (capped_score_above x 25 25%float eq_refl Hlt).
  - now rewrite (capped_score_above x 3 3%float eq_refl Hlt).
Qed.

Lemma radar_scores_are_capped_witness :
  exists widgets r,
    ratio_analysis_tab (Some (ratios_of income_1e9 balance_small_equity))
    = ret widgets /\
    widgets !! 13%nat
    = Some (WRadar r ["ROE"; "ROA"; "Current Ratio"; "Debt/Equity"]) /\
    r !! 0%nat = Some (PyFloat 100).
Proof.
  destruct (radar_scores_are_capped
              (FetchOk ∅ [income_1e9] [balance_small_equity] [])
              (ratios_of income_1e9 balance_small_equity) [])
    as (widgets & r & Htab & Hradar & Hroe & _).
  { apply calculate_ratios_nonempty; reflexivity. }
  exists widgets, r. split; [exact Htab|]. split; [exact Hradar|].
  apply (Hroe 100%float); [|reflexivity].
  rewrite lookup_roe. reflexivity.
Defined.

Lemma leverage_score_cases de :
  leverage_score de = PyInt 0 \/
  exists y, leverage_score de = PyFloat y /\ PrimFloat.ltb 0 y = true.
Proof.
  unfold leverage_score, py_max, quotient. cbn [mul sub py_lt to_float].
  destruct (PrimFloat.ltb _ _) eqn:H; [right|left; reflexivity].
  eexists. split; [reflexivity|exact H].
Qed.

(** X8: the leverage axis of the radar chart is never negative and never
    a NaN: its score is the integer 0 or a float above zero, whatever
    Debt to Equity is. *)
Theorem leverage_score_not_negative data ratios ui :
  calculate_ratios data = (Some ratios, ui) ->
  exists widgets r v,
    ratio_analysis_tab (Some ratios) = ret widgets /\
    widgets !! 13%nat
    = Some (WRadar r ["ROE"; "ROA"; "Current Ratio"; "Debt/Equity"]) /\
    r !! 3%nat = Some v /\
    (v = PyInt 0 \/ exists y, v = PyFloat y /\ PrimFloat.ltb 0 y = true).
Proof.
  intros E. apply calculate_ratios_Some_inv in E
    as (info & li & inc & lb & bs & cf & _ & _ & _ & -> & _).
  eexists. eexists. eexists. split; [apply ratio_tab_closed_form|].
  unfold ratio_widgets. cbn [lookup list_lookup].
  split; [reflexivity|]. split; [reflexivity|].
  apply leverage_score_cases.
Qed.

Lemma leverage_score_not_negative_witness :
  exists widgets r v,
    ratio_analysis_tab (Some (ratios_of income_1e9 balance_no_equity))
    = ret widgets /\
    widgets !! 13%nat
    = Some (WRadar r ["ROE"; "ROA"; "Current Ratio"; "Debt/Equity"]) /\
    r !! 3%nat = Some v /\
    (v = PyInt 0 \/ exists y, v = PyFloat y /\ PrimFloat.ltb 0 y = true).
Proof.
  apply (leverage_score_not_negative
           (FetchOk ∅ [income_1e9] [balance_no_equity] [])
           (ratios_of income_1e9 balance_no_equity) []).
  apply calculate_ratios_nonempty; reflexivity.
Defined.

(** * Further properties of the peer tab *)

Lemma PeerTab_eq (a b : PeerTab) :
  peer_ratios a = peer_ratios b -> shown a = shown b -> a = b.
Proof. destruct a, b. cbn. now intros -> ->. Qed.

Lemma key_ratios_present (latest_inc latest_bs : Series) ratio_name :
  ratio_name ∈ key_ratios ->
  is_Some (ratios_of latest_inc latest_bs !! ratio_name).
Proof.
  unfold key_ratios. rewrite !elem_of_cons, elem_of_nil.
  intros [->|[->|[->|[->|[->|[]]]]]]; eexists.
  - apply lookup_net_profit_margin.
  - apply lookup_roe.
  - apply lookup_roa.
  - apply lookup_current_ratio.
  - apply lookup_debt_to_equity.
Qed.

(** What [calculate_ratios] returns is [None] or a truthy table. *)
Lemma calculate_ratios_truthy data r :
  fst (calculate_ratios data) = Some r ->
  truthy (Some r) = true /\
  forall ratio_name, ratio_name ∈ ratio_names -> is_Some (r !! ratio_name).
Proof.
  destruct (calculate_ratios data) as [o ui] eqn:E. cbn [fst]. intros ->.
  apply calculate_ratios_Some_inv in E
    as (info & li & inc & lb & bs & cf & _ & _ & _ & -> & _).
  split; [apply truthy_ratios_of|].
  intros name Hin. pose proof (ratios_of_full li lb) as H.
  rewrite Forall_forall in H. now apply H.
Qed.

Section PeerTabProperties.

Variable fetch : string -> FetchData.

(** The dictionary of a run that reaches the peer table, key by key. *)
Lemma run_lookup ticker_input peers tab company :
  dashboard fetch ticker_input peers = PeerTable tab ->
  peer_ratios tab !! company
  = if decide (company = ticker_input \/
               (company ∈ peers /\ success (fetch company) = true))
    then Some (fst (calculate_ratios (fetch company)))
    else None.
Proof.
  intros Hrun. apply dashboard_table in Hrun as [_ ->].
  rewrite peer_loop_lookup. cbn [peer_ratios].
  destruct (decide (company ∈ peers /\ success (fetch company) = true))
    as [H|H].
  - rewrite decide_True; [reflexivity | now right].
  - destruct (decide (company = ticker_input)) as [->|Hne].
    + rewrite lookup_insert_eq, decide_True; [reflexivity | now left].
    + rewrite lookup_insert_ne by congruence.
      rewrite lookup_empty, decide_False; [reflexivity|].
      intros [?|?]; [now apply Hne | now apply H].
Qed.

Lemma run_values ticker_input peers tab company ratios :
  dashboard fetch ticker_input peers = PeerTable tab ->
  peer_ratios tab !! company = Some ratios ->
  ratios = fst (calculate_ratios (fetch company)).
Proof.
  intros Hrun. rewrite (run_lookup _ _ _ _ Hrun).
  case_decide; [now intros [= <-] | discriminate].
Qed.

(** X9: the comparison table and the ROE chart are drawn exactly when
    some peer of the list, other than the company itself, was fetched
    with success; peers that all fail (or only repeat the company's
    ticker) leave the tab without a table. *)
Theorem table_shown_iff_other_peer ticker_input peers tab :
  dashboard fetch ticker_input peers = PeerTable tab ->
  table_shown tab = true <->
  exists peer, peer ∈ peers /\ peer ≠ ticker_input /\
               success (fetch peer) = true.
Proof.
  intros Hrun. unfold table_shown. rewrite bool_decide_eq_true.
  assert (Hticker : is_Some (peer_ratios tab !! ticker_input)).
  { rewrite (run_lookup _ _ _ _ Hrun), decide_True by now left. eauto. }
  pose proof (map_size_delete_Some ticker_input _ Hticker) as Hsize.
  pose proof (map_size_ne_0_lookup_2 _ _ Hticker) as Hpos.
  assert (Hiff : (1 < size (peer_ratios tab))%nat <->
                 size (delete ticker_input (peer_ratios tab)) ≠ 0%nat) by lia.
  rewrite Hiff, map_size_ne_0_lookup. split.
  - intros [peer Hpeer].
    destruct (decide (ticker_input = peer)) as [->|Hne].
    { rewrite lookup_delete_eq in Hpeer. now destruct Hpeer. }
    rewrite lookup_delete_ne in Hpeer by assumption.
    rewrite (run_lookup _ _ _ _ Hrun) in Hpeer.
    case_decide as H; [|now destruct Hpeer].
    destruct H as [->|[Hin Hs]]; [now destruct Hne|].
    exists peer. repeat split; [assumption|congruence|assumption].
  - intros (peer & Hin & Hne & Hs). exists peer.
    rewrite lookup_delete_ne by congruence.
    rewrite (run_lookup _ _ _ _ Hrun), decide_True by (right; now split).
    eauto.
Qed.

Lemma peer_loop_ext peers peers' acc :
  (forall peer, peer ∈ peers <-> peer ∈ peers') ->
  peer_loop fetch peers acc = peer_loop fetch peers' acc.
Proof.
  intros H. apply PeerTab_eq; [|now rewrite !peer_loop_shown].
  apply map_eq. intros company. rewrite !peer_loop_lookup.
  destruct (decide (company ∈ peers /\ success (fetch company) = true))
    as [[Hin Hs]|Hno].
  - rewrite decide_True; [reflexivity|]. split; [now apply H | assumption].
  - rewrite decide_False; [reflexivity|].
    intros [Hin Hs]. apply Hno. split; [now apply H | assumption].
Qed.

(** X10: the entries of [peer_ratios] depend on the members of the peer
    list only: for two lists with the same members, in any order and
    with any repetitions, every company has the same entry (bound to the
    same ratios, or absent) and the same messages are shown. The order
    in which the dictionary lists its keys is not part of this
    statement. *)
Theorem peer_entries_depend_on_members ticker_input peers peers' tab tab' :
  (forall peer, peer ∈ peers <-> peer ∈ peers') ->
  dashboard fetch ticker_input peers = PeerTable tab ->
  dashboard fetch ticker_input peers' = PeerTable tab' ->
  (forall company, peer_ratios tab !! company = peer_ratios tab' !! company) /\
  shown tab = shown tab'.
Proof.
  intros H Hrun Hrun'.
  apply dashboard_table in Hrun as [_ ->].
  apply dashboard_table in Hrun' as [_ ->].
  rewrite (peer_loop_ext peers peers' _ H). now split.
Qed.

(** X11: in the comparison table every company that has ratios has a
    cell in each of the five rows, holding the ratio itself (the lookup
    never raises a KeyError), and a company whose ratios are [None] (its
    statements were empty) has no cell in any row. *)
Theorem comparison_cells ticker_input peers tab company ratio_name :
  dashboard fetch ticker_input peers = PeerTable tab ->
  ratio_name ∈ key_ratios ->
  match peer_ratios tab !! company with
  | Some (Some r) =>
      exists v, r !! ratio_name = Some v /\
        comparison_row (peer_ratios tab) ratio_name !! company = Some (ret v)
  | _ => comparison_row (peer_ratios tab) ratio_name !! company = None
  end.
Proof.
  intros Hrun Hname. unfold comparison_row. rewrite lookup_omap.
  destruct (peer_ratios tab !! company) as [[r|]|] eqn:E; [|reflexivity..].
  apply (run_values _ _ _ _ _ Hrun) in E. symmetry in E.
  destruct (calculate_ratios (fetch company)) as [o ui] eqn:Hc.
  cbn [fst] in E. subst o.
  apply calculate_ratios_Some_inv in Hc
    as (info & li & inc & lb & bs & cf & _ & _ & _ & -> & _).
  destruct (key_ratios_present li lb ratio_name Hname) as [v Hv].
  exists v. split; [exact Hv|].
  cbn [option_bind mbind]. rewrite truthy_ratios_of. now rewrite Hv.
Qed.

End PeerTabProperties.

Lemma roe_values_ok (items : list (string * option (gmap string pynum))) :
  (forall c r, (c, Some r) ∈ items ->
     truthy (Some r) = true /\ is_Some (r !! "ROE")) ->
  exists ys, roe_values items = ret ys /\
    length ys = length (filter (fun it => is_Some (snd it)) items).
Proof.
  induction items as [|[c [r|]] items IH]; intros H.
  - exists []. split; reflexivity.
  - destruct (H c r) as [Ht [v Hv]]; [now left|].
    destruct IH as (ys & Hys & Hlen).
    { intros c' r' Hin. apply (H c'). now right. }
    exists (v :: ys). split.
    + cbn [roe_values]. rewrite Ht, (getitem_Some _ _ _ Hv), Hys. reflexivity.
    + rewrite filter_cons_True by (cbn; eauto). cbn [length]. now rewrite Hlen.
  - destruct IH as (ys & Hys & Hlen).
    { intros c' r' Hin. apply (H c'). now right. }
    exists ys. split; [exact Hys|].
    rewrite filter_cons_False; [exact Hlen|].
    cbn. intros [? [=]].
Qed.

Lemma sample_run_table :
  dashboard sample_fetch "AAPL" ["MSFT"; "NOSUCH"]
  = PeerTable
      (peer_loop sample_fetch ["MSFT"; "NOSUCH"]
         (mkPeerTab
            (<["AAPL" := fst (calculate_ratios (sample_fetch "AAPL"))]> ∅) [])).
Proof.
  unfold dashboard, peer_comparison.
  change (success (sample_fetch "AAPL")) with true. cbn [negb].
  rewrite (surjective_pairing (calculate_ratios (sample_fetch "AAPL"))).
  rewrite (calculate_ratios_success_quiet (sample_fetch "AAPL")) by reflexivity.
  reflexivity.
Qed.

Lemma sample_run_table_reordered :
  dashboard sample_fetch "AAPL" ["NOSUCH"; "MSFT"; "MSFT"]
  = PeerTable
      (peer_loop sample_fetch ["NOSUCH"; "MSFT"; "MSFT"]
         (mkPeerTab
            (<["AAPL" := fst (calculate_ratios (sample_fetch "AAPL"))]> ∅) [])).
Proof.
  unfold dashboard, peer_comparison.
  change (success (sample_fetch "AAPL")) with true. cbn [negb].
  rewrite (surjective_pairing (calculate_ratios (sample_fetch "AAPL"))).
  rewrite (calculate_ratios_success_quiet (sample_fetch "AAPL")) by reflexivity.
  reflexivity.
Qed.

Lemma sample_empty_run_table :
  dashboard sample_fetch_empty "AAPL" ["EMPTY"]
  = PeerTable
      (peer_loop sample_fetch_empty ["EMPTY"]
         (mkPeerTab
            (<["AAPL" := fst (calculate_ratios (sample_fetch_empty "AAPL"))]> ∅)
            [])).
Proof.
  unfold dashboard, peer_comparison.
  change (success (sample_fetch_empty "AAPL")) with true. cbn [negb].
  rewrite (surjective_pairing (calculate_ratios (sample_fetch_empty "AAPL"))).
  rewrite (calculate_ratios_success_quiet (sample_fetch_empty "AAPL"))
    by reflexivity.
  reflexivity.
Qed.

Section RoeChart.

Variable fetch : string -> FetchData.

(** X12: the ROE chart of the peer tab is drawn without a KeyError, with
    one label and one colour per company of [peer_ratios], and with at
    most as many values as labels; as soon as a listed peer is fetched
    with success but with an empty balance sheet or income statement
    (its ratios are [None]), the chart has fewer values than labels. *)
Theorem roe_chart_labels_and_values ticker_input peers tab :
  dashboard fetch ticker_input peers = PeerTable tab ->
  exists chart,
    roe_chart ticker_input (peer_ratios tab) = ret chart /\
    length (bar_x chart) = size (peer_ratios tab) /\
    length (bar_colors chart) = length (bar_x chart) /\
    (length (bar_y chart) <= length (bar_x chart))%nat /\
    (forall peer info inc bs cf,
       peer ∈ peers ->
       fetch peer = FetchOk info inc bs cf ->
       df_empty bs || df_empty inc = true ->
       (length (bar_y chart) < length (bar_x chart))%nat).
Proof.
  intros Hrun.
  destruct (roe_values_ok (map_to_list (peer_ratios tab))) as (ys & Hys & Hlen).
  { intros c r Hin. apply elem_of_map_to_list in Hin.
    apply (run_values _ _ _ _ _ _ Hrun) in Hin. symmetry in Hin.
    destruct (calculate_ratios_truthy _ _ Hin) as [Ht Hall].
    split; [exact Ht|]. apply Hall. unfold ratio_names.
    rewrite !elem_of_cons. auto. }
  unfold roe_chart. rewrite Hys. cbn [bind ret].
  eexists. split; [reflexivity|]. cbn [bar_x bar_y bar_colors].
  rewrite length_map, !length_fmap, length_map_to_list, Hlen.
  split; [reflexivity|]. split; [reflexivity|].
  rewrite <- (length_map_to_list (peer_ratios tab)).
  split; [apply length_filter|].
  intros peer info inc bs cf Hin Hfetch Hempty.
  apply (length_filter_lt _ _ (peer, None)); [|cbn; intros [? [=]]].
  apply elem_of_map_to_list.
  rewrite (run_lookup _ _ _ _ _ Hrun), decide_True.
  - rewrite Hfetch, calculate_ratios_empty by assumption. reflexivity.
  - right. split; [assumption|]. now rewrite Hfetch.
Qed.

End RoeChart.

Lemma roe_chart_labels_and_values_witness :
  exists chart,
    roe_chart "AAPL"
      (peer_ratios
         (peer_loop sample_fetch_empty ["EMPTY"]
            (mkPeerTab
               (<["AAPL" := fst (calculate_ratios (sample_fetch_empty "AAPL"))]> ∅)
               [])))
    = ret chart /\
    (length (bar_y chart) < length (bar_x chart))%nat.
Proof.
  destruct (roe_chart_labels_and_values sample_fetch_empty "AAPL" ["EMPTY"] _
              sample_empty_run_table)
    as (chart & Hchart & _ & _ & _ & Hlt).
  exists chart. split; [exact Hchart|].
  apply (Hlt "EMPTY" ∅ [] [] []); [|reflexivity..].
  rewrite elem_of_cons. now left.
Defined.

Lemma table_shown_iff_other_peer_witness :
  table_shown
    (peer_loop sample_fetch ["MSFT"; "NOSUCH"]
       (mkPeerTab
          (<["AAPL" := fst (calculate_ratios (sample_fetch "AAPL"))]> ∅) []))
  = true <->
  exists peer, peer ∈ ["MSFT"; "NOSUCH"] /\ peer ≠ "AAPL" /\
               success (sample_fetch peer) = true.
Proof.
  apply (table_shown_iff_other_peer sample_fetch "AAPL" ["MSFT"; "NOSUCH"]).
  exact sample_run_table.
Defined.

Lemma peer_entries_depend_on_members_witness :
  (forall company,
     peer_ratios
       (peer_loop sample_fetch ["MSFT"; "NOSUCH"]
          (mkPeerTab
             (<["AAPL" := fst (calculate_ratios (sample_fetch "AAPL"))]> ∅) []))
       !! company
     = peer_ratios
         (peer_loop sample_fetch ["NOSUCH"; "MSFT"; "MSFT"]
            (mkPeerTab
               (<["AAPL" := fst (calculate_ratios (sample_fetch "AAPL"))]> ∅) []))
         !! company) /\
  shown
    (peer_loop sample_fetch ["MSFT"; "NOSUCH"]
       (mkPeerTab
          (<["AAPL" := fst (calculate_ratios (sample_fetch "AAPL"))]> ∅) []))
  = shown
      (peer_loop sample_fetch ["NOSUCH"; "MSFT"; "MSFT"]
         (mkPeerTab
            (<["AAPL" := fst (calculate_ratios (sample_fetch "AAPL"))]> ∅) [])).
Proof.
  apply (peer_entries_depend_on_members sample_fetch "AAPL"
           ["MSFT"; "NOSUCH"] ["NOSUCH"; "MSFT"; "MSFT"]).
  - intros peer. rewrite !elem_of_cons, elem_of_nil. tauto.
  - exact sample_run_table.
  - exact sample_run_table_reordered.
Defined.

Lemma comparison_cells_witness :
  match
    peer_ratios
      (peer_loop sample_fetch ["MSFT"; "NOSUCH"]
         (mkPeerTab
            (<["AAPL" := fst (calculate_ratios (sample_fetch "AAPL"))]> ∅) []))
      !! "MSFT"
  with
  | Some (Some r) =>
      exists v, r !! "ROE" = Some v /\
        comparison_row
          (peer_ratios
             (peer_loop sample_fetch ["MSFT"; "NOSUCH"]
                (mkPeerTab
                   (<["AAPL" := fst (calculate_ratios (sample_fetch "AAPL"))]> ∅)
                   [])))
          "ROE" !! "MSFT" = Some (ret v)
  | _ =>
      comparison_row
        (peer_ratios
           (peer_loop sample_fetch ["MSFT"; "NOSUCH"]
              (mkPeerTab
                 (<["AAPL" := fst (calculate_ratios (sample_fetch "AAPL"))]> ∅)
                 [])))
        "ROE" !! "MSFT" = None
  end.
Proof.
  apply (comparison_cells sample_fetch "AAPL" ["MSFT"; "NOSUCH"]).
  - exact sample_run_table.
  - unfold key_ratios. rewrite !elem_of_cons. auto.
Defined.

(** * The list of peers *)

Lemma isspace_upper_char c : py_isspace (upper_char c) = py_isspace c.
Proof. destruct c as [[] [] [] [] [] [] [] []]; reflexivity. Qed.

Lemma upper_char_idem c : upper_char (upper_char c) = upper_char c.
Proof. destruct c as [[] [] [] [] [] [] [] []]; reflexivity. Qed.

Lemma upper_char_comma c : Ascii.eqb (upper_char c) comma = Ascii.eqb c comma.
Proof. destruct c as [[] [] [] [] [] [] [] []]; reflexivity. Qed.

Lemma isspace_not_comma c : py_isspace c = true -> Ascii.eqb c comma = false.
Proof. destruct c as [[] [] [] [] [] [] [] []]; cbv; congruence. Qed.

Lemma str_upper_idem s : str_upper (str_upper s) = str_upper s.
Proof.
  induction s as [|c s IH]; [reflexivity|].
  cbn [str_upper]. now rewrite upper_char_idem, IH.
Qed.

Lemma str_upper_empty s : str_upper s = EmptyString <-> s = EmptyString.
Proof. destruct s; cbn [str_upper]; split; congruence. Qed.

Lemma str_upper_contains_comma s :
  str_contains comma (str_upper s) = str_contains comma s.
Proof.
  induction s as [|c s IH]; [reflexivity|].
  cbn [str_upper str_contains]. now rewrite upper_char_comma, IH.
Qed.

Lemma str_lstrip_upper s : str_lstrip (str_upper s) = str_upper (str_lstrip s).
Proof.
  induction s as [|c s IH]; [reflexivity|].
  cbn [str_upper str_lstrip]. rewrite isspace_upper_char.
  destruct (py_isspace c); [exact IH | reflexivity].
Qed.

Lemma str_rstrip_upper s : str_rstrip (str_upper s) = str_upper (str_rstrip s).
Proof.
  induction s as [|c s IH]; [reflexivity|].
  cbn [str_upper str_rstrip]. rewrite IH, isspace_upper_char.
  destruct (str_rstrip s); cbn [str_upper]; [|reflexivity].
  destruct (py_isspace c); reflexivity.
Qed.

Lemma str_strip_upper s : str_strip (str_upper s) = str_upper (str_strip s).
Proof. unfold str_strip. now rewrite str_lstrip_upper, str_rstrip_upper. Qed.

Lemma str_rstrip_idem s : str_rstrip (str_rstrip s) = str_rstrip s.
Proof.
  induction s as [|c s IH]; [reflexivity|].
  cbn [str_rstrip]. destruct (str_rstrip s) as [|c' s'] eqn:E.
  - destruct (py_isspace c) eqn:Hc; [reflexivity|].
    cbn [str_rstrip]. now rewrite Hc.
  - cbn [str_rstrip] in *. now rewrite IH.
Qed.

(** A string that starts with a character other than white space. *)
Definition starts_clean (s : string) : Prop :=
  match s with
  | EmptyString => True
  | String c _ => py_isspace c = false
  end.

Lemma str_lstrip_starts_clean s : starts_clean (str_lstrip s).
Proof.
  induction s as [|c s IH]; [exact I|].
  cbn [str_lstrip]. destruct (py_isspace c) eqn:Hc; [exact IH | exact Hc].
Qed.

Lemma str_lstrip_id s : starts_clean s -> str_lstrip s = s.
Proof. destruct s as [|c s]; [reflexivity|]. cbn. now intros ->. Qed.

Lemma str_rstrip_starts_clean s : starts_clean s -> starts_clean (str_rstrip s).
Proof.
  destruct s as [|c s]; [intros _; exact I|]. cbn [starts_clean str_rstrip].
  intros Hc. destruct (str_rstrip s); [now rewrite Hc | exact Hc].
Qed.

Lemma str_strip_idem s : str_strip (str_strip s) = str_strip s.
Proof.
  unfold str_strip.
  rewrite (str_lstrip_id (str_rstrip (str_lstrip s)))
    by apply str_rstrip_starts_clean, str_lstrip_starts_clean.
  apply str_rstrip_idem.
Qed.

Lemma str_lstrip_contains c s :
  str_contains c s = false -> str_contains c (str_lstrip s) = false.
Proof.
  induction s as [|c' s IH]; [reflexivity|].
  cbn [str_lstrip]. destruct (py_isspace c'); [|easy].
  cbn [str_contains]. intros H. apply orb_false_elim in H as [_ H]. auto.
Qed.

Lemma str_rstrip_contains c s :
  str_contains c s = false -> str_contains c (str_rstrip s) = false.
Proof.
  induction s as [|c' s IH]; [reflexivity|].
  cbn [str_contains str_rstrip]. intros H.
  apply orb_false_elim in H as [Hc H]. specialize (IH H).
  destruct (str_rstrip s); [|cbn [str_contains] in *; now rewrite Hc, IH].
  destruct (py_isspace c'); [reflexivity|].
  cbn [str_contains]. now rewrite Hc.
Qed.

Lemma str_strip_contains c s :
  str_contains c s = false -> str_contains c (str_strip s) = false.
Proof. intros H. now apply str_rstrip_contains, str_lstrip_contains. Qed.

Lemma str_split_not_nil sep s : str_split sep s ≠ [].
Proof.
  destruct s as [|c s]; [discriminate|]. cbn [str_split].
  destruct (Ascii.eqb c sep); [discriminate|].
  destruct (str_split sep s); discriminate.
Qed.

(** No piece of a split holds the separator. *)
Lemma str_split_pieces sep s p :
  p ∈ str_split sep s -> str_contains sep p = false.
Proof.
  revert p. induction s as [|c s IH]; intros p; cbn [str_split].
  - rewrite elem_of_cons, elem_of_nil. now intros [->|[]].
  - destruct (Ascii.eqb c sep) eqn:Hc.
    + rewrite elem_of_cons. intros [->|H]; [reflexivity | now apply IH].
    + destruct (str_split sep s) as [|piece pieces] eqn:E.
      * rewrite elem_of_cons, elem_of_nil. intros [->|[]].
        cbn [str_contains]. now rewrite Hc.
      * rewrite elem_of_cons. intros [->|H].
        -- cbn [str_contains]. rewrite Hc. apply IH. now left.
        -- apply IH. now right.
Qed.

(** X13: on ASCII input, every peer that the sidebar hands to the peer
    tab is a non-empty string without comma, without white space at
    either end and without lower-case letter (applying [strip] or
    [upper] again changes nothing). *)
Theorem parsed_peers_are_clean peer_input peer :
  ascii_only peer_input ->
  peer ∈ parse_peers peer_input ->
  clean_ticker peer.
Proof.
  intros _ Hin. unfold parse_peers in Hin.
  apply list_elem_of_fmap in Hin as (p & -> & Hin).
  apply list_elem_of_filter in Hin as [Hne Hin].
  apply str_split_pieces in Hin.
  repeat split.
  - now rewrite str_upper_empty.
  - rewrite str_upper_contains_comma. now apply str_strip_contains.
  - now rewrite str_strip_upper, str_strip_idem.
  - apply str_upper_idem.
Qed.

Lemma ascii_onlyb_spec s : ascii_onlyb s = true -> ascii_only s.
Proof.
  induction s as [|c s IH]; [intros _; exact I|].
  cbn [ascii_onlyb ascii_only]. intros H.
  apply andb_true_iff in H as [Hc H]. split; [|now apply IH].
  now apply Nat.ltb_lt in Hc.
Qed.

Lemma parsed_peers_are_clean_witness : clean_ticker "GOOGL".
Proof.
  apply (parsed_peers_are_clean "msft, googl" "GOOGL").
  - apply ascii_onlyb_spec. reflexivity.
  - change (parse_peers "msft, googl") with ["MSFT"; "GOOGL"].
    rewrite !elem_of_cons. auto.
Defined.

Lemma str_split_no_sep sep t :
  str_contains sep t = false -> str_split sep t = [t].
Proof.
  induction t as [|c t IH]; [reflexivity|].
  cbn [str_contains str_split]. intros H.
  apply orb_false_elim in H as [Hc H]. now rewrite Hc, (IH H).
Qed.

Lemma str_split_app sep t s :
  str_contains sep t = false ->
  str_split sep (t +:+ String sep s) = t :: str_split sep s.
Proof.
  induction t as [|c t IH]; intros H.
  - change (EmptyString +:+ String sep s) with (String sep s).
    cbn [str_split]. now rewrite Ascii.eqb_refl.
  - cbn [str_contains] in H. apply orb_false_elim in H as [Hc H].
    change (String c t +:+ String sep s) with (String c (t +:+ String sep s)).
    cbn [str_split]. now rewrite Hc, (IH H).
Qed.

(** The pieces that survive the filter, stripped and upper-cased. *)
Lemma parse_peers_pieces peer_input :
  parse_peers peer_input
  = map (fun p => str_upper (str_strip p))
        (filter (fun p => str_strip p ≠ EmptyString)
                (str_split comma peer_input)).
Proof. reflexivity. Qed.

Lemma parse_peers_leading_space c s :
  py_isspace c = true -> parse_peers (String c s) = parse_peers s.
Proof.
  intros Hc. rewrite !parse_peers_pieces. cbn [str_split].
  rewrite (isspace_not_comma c Hc).
  destruct (str_split comma s) as [|piece pieces] eqn:E.
  { now apply str_split_not_nil in E. }
  assert (Hstrip : str_strip (String c piece) = str_strip piece).
  { unfold str_strip. cbn [str_lstrip]. now rewrite Hc. }
  destruct (decide (str_strip piece = EmptyString)) as [He|Hne].
  - rewrite !filter_cons_False by (rewrite ?Hstrip; tauto). reflexivity.
  - rewrite !filter_cons_True by (rewrite ?Hstrip; assumption).
    cbn [map]. now rewrite Hstrip.
Qed.

Lemma parse_peers_first_clean t s :
  clean_ticker t ->
  parse_peers (t +:+ String comma s) = t :: parse_peers s.
Proof.
  intros (Hne & Hcomma & Hstrip & Hupper). rewrite !parse_peers_pieces.
  rewrite (str_split_app _ _ _ Hcomma).
  rewrite filter_cons_True by (rewrite Hstrip; assumption).
  cbn [map]. now rewrite Hstrip, Hupper.
Qed.

Lemma parse_peers_single t : clean_ticker t -> parse_peers t = [t].
Proof.
  intros (Hne & Hcomma & Hstrip & Hupper). rewrite parse_peers_pieces.
  rewrite (str_split_no_sep _ _ Hcomma).
  rewrite filter_cons_True by (rewrite Hstrip; assumption).
  cbn. now rewrite Hstrip, Hupper.
Qed.

(** X14: on ASCII input, clean tickers typed one after the other,
    separated by a comma and a space (the form of the default value
    "MSFT, GOOGL"), are read back as exactly that list: nothing is lost,
    merged, reordered or altered. *)
Theorem comma_separated_round_trip tickers :
  Forall ascii_only tickers ->
  Forall clean_ticker tickers ->
  parse_peers (comma_separated tickers) = tickers.
Proof.
  intros _.
  induction 1 as [|t tickers Ht Hrest IH]; [reflexivity|].
  destruct tickers as [|t' tickers].
  - now apply parse_peers_single.
  - change (comma_separated (t :: t' :: tickers))
      with (t +:+ String comma (String (Ascii.ascii_of_nat 32)
                                  (comma_separated (t' :: tickers)))).
    rewrite (parse_peers_first_clean _ _ Ht).
    rewrite parse_peers_leading_space by reflexivity. now rewrite IH.
Qed.

Lemma comma_separated_round_trip_witness :
  parse_peers (comma_separated ["MSFT"; "GOOGL"]) = ["MSFT"; "GOOGL"].
Proof.
  apply (comma_separated_round_trip ["MSFT"; "GOOGL"]).
  - repeat constructor; apply ascii_onlyb_spec; reflexivity.
  - repeat constructor; discriminate.
Defined.

Lemma str_split_blank s :
  blank_or_commas s ->
  Forall (fun p => str_lstrip p = EmptyString) (str_split comma s).
Proof.
  induction s as [|c s IH]; intros H.
  - repeat constructor.
  - destruct H as [Hc H]. specialize (IH H). cbn [str_split].
    destruct (Ascii.eqb c comma) eqn:E.
    + now constructor.
    + destruct Hc as [Hc| ->]; [|now rewrite Ascii.eqb_refl in E].
      destruct (str_split comma s) as [|piece pieces].
      * constructor; [|constructor]. cbn [str_lstrip]. now rewrite Hc.
      * apply Forall_cons in IH as [Hp Hps].
        constructor; [|assumption]. cbn [str_lstrip]. now rewrite Hc.
Qed.

(** X15: on ASCII input, a peer input that holds nothing but white space
    and commas (the empty input included) gives no peer at all, and on
    the empty list tab 6 only shows the hint to enter peer tickers,
    whatever the company is. *)
Theorem blank_input_gives_no_peers peer_input :
  ascii_only peer_input ->
  blank_or_commas peer_input ->
  parse_peers peer_input = [] /\
  forall fetch ticker_input company_data,
    peer_comparison fetch ticker_input company_data (parse_peers peer_input)
    = NoPeers
        [StInfo "💡 Enter peer tickers in the sidebar to enable comparison analysis."].
Proof.
  intros _ H.
  assert (Hnil : parse_peers peer_input = []).
  { rewrite parse_peers_pieces.
    pose proof (str_split_blank _ H) as Hall.
    induction Hall as [|p ps Hp _ IH]; [reflexivity|].
    rewrite filter_cons_False; [exact IH|].
    unfold str_strip. rewrite Hp. intros Hne. now apply Hne. }
  split; [exact Hnil|].
  intros fetch ticker_input company_data. now rewrite Hnil.
Qed.

Lemma blank_input_gives_no_peers_witness :
  parse_peers " , ,, " = [] /\
  forall fetch ticker_input company_data,
    peer_comparison fetch ticker_input company_data (parse_peers " , ,, ")
    = NoPeers
        [StInfo "💡 Enter peer tickers in the sidebar to enable comparison analysis."].
Proof.
  apply (blank_input_gives_no_peers " , ,, ").
  - apply ascii_onlyb_spec. reflexivity.
  - cbn. repeat split; first [left; reflexivity | right; reflexivity].
Defined.

(** * The charts over the periods shown *)

Lemma mapM_ok {A B : Type} (f : A -> result B) (l : list A) :
  (forall a, a ∈ l -> exists b, f a = ret b) ->
  exists bs, mapM f l = ret bs /\ length bs = length l.
Proof.
  induction l as [|a l IH]; intros H.
  - exists []. split; reflexivity.
  - destruct (H a) as [b Hb]; [now left|].
    destruct IH as (bs & Hbs & Hlen); [intros a' Ha'; apply H; now right|].
    exists (b :: bs). cbn [mapM]. rewrite Hb, Hbs. cbn [bind ret length].
    split; [reflexivity | now rewrite Hlen].
Qed.

Lemma but_last_length {A : Type} (l : list A) :
  length (but_last l) = (length l - 1)%nat.
Proof. unfold but_last. rewrite length_take. lia. Qed.

Lemma in_index_shown metric (stmt : LabelledFrame) periods col :
  shared_index stmt ->
  in_index metric stmt = true ->
  col ∈ take periods stmt ->
  exists v, loc metric col = ret v.
Proof.
  intros Hshared Hin Hcol. destruct stmt as [|c0 stmt]; [discriminate|].
  cbn [in_index] in Hin. apply bool_decide_eq_true in Hin.
  assert (Hc : col ∈ c0 :: stmt).
  { apply list_elem_of_lookup in Hcol as [i Hi].
    apply lookup_take_Some in Hi as [Hi _].
    apply list_elem_of_lookup. eauto. }
  destruct (Hshared c0 col metric) as [v Hv]; [now left|assumption..|].
  exists v. unfold loc. now rewrite Hv.
Qed.

Lemma in_billions_ok metric (stmt : LabelledFrame) periods :
  shared_index stmt ->
  in_index metric stmt = true ->
  exists ys, in_billions metric (take periods stmt) = ret ys /\
             length ys = length (take periods stmt).
Proof.
  intros Hshared Hin. apply mapM_ok. intros col Hcol.
  destruct (in_index_shown _ _ _ _ Hshared Hin Hcol) as [v ->]. eauto.
Qed.

(** X16: on an income statement that has a Net Income row and no Total
    Revenue row, the "Revenue & Net Income Trend" chart of tab 1 fails
    with [NameError: name 'years' is not defined]: the x axis of the Net
    Income trace is bound only where the Revenue trace is drawn. *)
Theorem net_income_chart_needs_revenue (inc_stmt : LabelledFrame) periods :
  shared_index inc_stmt ->
  in_index "Total Revenue" inc_stmt = false ->
  in_index "Net Income" inc_stmt = true ->
  revenue_income_chart inc_stmt periods = raise (NameError "years").
Proof.
  intros Hshared Hrev Hni. unfold revenue_income_chart.
  rewrite Hrev, Hni. cbn [bind ret fst snd].
  destruct (in_billions_ok "Net Income" inc_stmt periods Hshared Hni)
    as (ys & -> & _).
  reflexivity.
Qed.

Lemma shared_index_of_doms (stmt : LabelledFrame) (index : gset string) :
  Forall (fun col => dom (snd col) = index) stmt -> shared_index stmt.
Proof.
  intros H c1 c2 metric H1 H2. rewrite Forall_forall in H.
  rewrite <- !elem_of_dom, (H c1 H1), (H c2 H2). tauto.
Qed.

Lemma shared_index_without_revenue : shared_index income_without_revenue.
Proof.
  apply (shared_index_of_doms _ {[ "Net Income" ]}).
  repeat constructor; cbn [snd]; apply dom_singleton_L.
Qed.

Lemma net_income_chart_needs_revenue_witness :
  revenue_income_chart income_without_revenue 3 = raise (NameError "years").
Proof.
  apply (net_income_chart_needs_revenue income_without_revenue 3).
  - exact shared_index_without_revenue.
  - reflexivity.
  - reflexivity.
Defined.

(** X17: on an income statement that has a Total Revenue row the chart
    of tab 1 is drawn without error: one trace, or two when there is a
    Net Income row, and in every trace the x axis and the y axis have
    the same length, the number of periods shown (the slider value, or
    the number of columns when there are fewer). *)
Theorem revenue_chart_axes_match (inc_stmt : LabelledFrame) periods :
  shared_index inc_stmt ->
  in_index "Total Revenue" inc_stmt = true ->
  exists traces,
    revenue_income_chart inc_stmt periods = ret traces /\
    length traces = (if in_index "Net Income" inc_stmt then 2 else 1)%nat /\
    Forall (fun t => length (trace_x t) = length (trace_y t) /\
                     length (trace_x t) = (periods `min` length inc_stmt)%nat)
           traces.
Proof.
  intros Hshared Hrev. unfold revenue_income_chart. rewrite Hrev.
  destruct (in_billions_ok "Total Revenue" inc_stmt periods Hshared Hrev)
    as (rs & -> & Hrs).
  cbn [bind ret fst snd app].
  assert (Hx : length (map fst (take periods inc_stmt))
               = (periods `min` length inc_stmt)%nat)
    by now rewrite length_map, length_take.
  rewrite length_take in Hrs.
  destruct (in_index "Net Income" inc_stmt) eqn:Hni.
  - destruct (in_billions_ok "Net Income" inc_stmt periods Hshared Hni)
      as (ns & -> & Hns).
    rewrite length_take in Hns. cbn [bind ret app].
    eexists. split; [reflexivity|]. split; [reflexivity|].
    repeat constructor; cbn [trace_x trace_y]; congruence.
  - eexists. split; [reflexivity|]. split; [reflexivity|].
    repeat constructor; cbn [trace_x trace_y]; congruence.
Qed.

Lemma shared_index_three_years : shared_index income_three_years.
Proof.
  apply (shared_index_of_doms _ {[ "Total Revenue"; "Net Income" ]}).
  repeat constructor; cbn [snd];
    rewrite dom_insert_L, dom_singleton_L; reflexivity.
Qed.

Lemma revenue_chart_axes_match_witness :
  exists traces,
    revenue_income_chart income_three_years 2 = ret traces /\
    length traces = 2%nat /\
    Forall (fun t => length (trace_x t) = length (trace_y t) /\
                     length (trace_x t) = 2%nat)
           traces.
Proof.
  apply (revenue_chart_axes_match income_three_years 2).
  - exact shared_index_three_years.
  - reflexivity.
Defined.

Lemma getitem_list_lt {A : Type} (l : list A) i :
  (i < length l)%nat -> exists a, getitem_list l i = ret a.
Proof.
  intros H. destruct (lookup_lt_is_Some_2 l i H) as [a Ha].
  exists a. unfold getitem_list. now rewrite Ha.
Qed.

Lemma revenue_growth_ok revenue_values :
  exists growth, revenue_growth revenue_values = ret growth /\
                 length growth = length revenue_values.
Proof.
  unfold revenue_growth.
  destruct (mapM_ok
    (fun i =>
       if (i <? length revenue_values - 1)%nat then
         a <- getitem_list revenue_values i ;;
         b <- getitem_list revenue_values (i + 1) ;;
         b' <- getitem_list revenue_values (i + 1) ;;
         ret (PyFloat (PrimFloat.mul
                         (PrimFloat.div (PrimFloat.sub a b) b')
                         (float_of_int 100)))
       else ret (PyInt 0))
    (seq 0 (length revenue_values))) as (growth & Hg & Hlen).
  - intros i Hi. apply elem_of_seq in Hi as [_ Hi].
    destruct (i <? length revenue_values - 1)%nat eqn:E; [|eauto].
    apply Nat.ltb_lt in E.
    destruct (getitem_list_lt revenue_values i) as [a ->]; [lia|].
    destruct (getitem_list_lt revenue_values (i + 1)) as [b ->]; [lia|].
    cbn [bind ret]. eauto.
  - exists growth. split; [exact Hg|]. now rewrite Hlen, length_seq.
Qed.

(** X18: on an income statement with a Total Revenue row and at least two
    columns the growth chart of tab 5 is drawn without error, and its
    years, its values and its colours all have the same length: one
    less than the number of periods shown. With the slider at 1 the
    chart has no bar at all, however many years the statement holds. *)
Theorem growth_chart_lengths (inc_stmt : LabelledFrame) periods :
  shared_index inc_stmt ->
  df_empty (frame_of inc_stmt) = false ->
  (2 <= length inc_stmt)%nat ->
  in_index "Total Revenue" inc_stmt = true ->
  exists bars,
    growth_chart inc_stmt periods = ret (Some bars) /\
    length (growth_x bars) = (periods `min` length inc_stmt - 1)%nat /\
    length (growth_y bars) = length (growth_x bars) /\
    length (growth_colors bars) = length (growth_x bars) /\
    (periods = 1%nat -> growth_x bars = [] /\ growth_y bars = []).
Proof.
  intros Hshared Hne Hlen Hrev. unfold growth_chart.
  rewrite Hne, Hrev. apply Nat.leb_le in Hlen as Hleb. rewrite Hleb.
  cbn [negb andb].
  destruct (mapM_ok (loc "Total Revenue") (take periods inc_stmt))
    as (rv & -> & Hrv).
  { intros col Hcol. exact (in_index_shown _ _ _ _ Hshared Hrev Hcol). }
  cbn [bind ret].
  destruct (revenue_growth_ok rv) as (growth & -> & Hg).
  cbn [bind ret]. eexists. split; [reflexivity|].
  cbn [growth_x growth_y growth_colors].
  rewrite length_map, !but_last_length, length_map, Hg, Hrv, length_take.
  split; [reflexivity|]. split; [reflexivity|]. split; [reflexivity|].
  intros ->. split; apply nil_length_inv; rewrite but_last_length.
  - rewrite length_map, length_take. lia.
  - rewrite Hg, Hrv, length_take. lia.
Qed.

Lemma growth_chart_lengths_witness :
  exists bars,
    growth_chart income_three_years 1 = ret (Some bars) /\
    length (growth_x bars) = 0%nat /\
    length (growth_y bars) = length (growth_x bars) /\
    length (growth_colors bars) = length (growth_x bars) /\
    (1%nat = 1%nat -> growth_x bars = [] /\ growth_y bars = []).
Proof.
  apply (growth_chart_lengths income_three_years 1).
  - exact shared_index_three_years.
  - reflexivity.
  - cbn. lia.
  - reflexivity.
Defined.

Lemma in_index_loc metric (stmt : LabelledFrame) col :
  shared_index stmt ->
  in_index metric stmt = true ->
  col ∈ stmt ->
  exists v, snd col !! metric = Some v /\ loc metric col = ret v.
Proof.
  intros Hshared Hin Hcol. destruct stmt as [|c0 stmt]; [discriminate|].
  cbn [in_index] in Hin. apply bool_decide_eq_true in Hin.
  destruct (Hshared c0 col metric) as [v Hv]; [now left|assumption..|].
  exists v. split; [exact Hv|]. unfold loc. now rewrite Hv.
Qed.

Lemma margin_of_ok metric (stmt : LabelledFrame) col revenue :
  shared_index stmt -> col ∈ stmt -> ne0 revenue = true ->
  exists m, margin_of metric stmt col revenue = ret m.
Proof.
  intros Hshared Hcol Hne. unfold margin_of.
  destruct (in_index metric stmt) eqn:Hin; [|eauto].
  destruct (in_index_loc _ _ _ Hshared Hin Hcol) as (v & _ & ->).
  cbn [bind ret]. rewrite (truediv_ne0 _ _ Hne). cbn [bind ret]. eauto.
Qed.

Lemma margins_loop_ok (stmt cols : LabelledFrame) fig :
  shared_index stmt ->
  (forall col, col ∈ cols -> col ∈ stmt) ->
  exists groups,
    margins_loop stmt cols fig = ret (fig ++ groups) /\
    map group_year groups
    = map fst (filter (fun col => ne0 (period_revenue stmt col) = true) cols) /\
    Forall (fun g => length (group_values g) = 3%nat) groups.
Proof.
  intros Hshared. revert fig. unfold LabelledFrame in *.
  induction cols as [|col cols IH]; intros fig Hsub.
  - exists []. rewrite app_nil_r. repeat split. constructor.
  - assert (Hcol : col ∈ stmt) by (apply Hsub; now left).
    assert (Hrest : forall c, c ∈ cols -> c ∈ stmt)
      by (intros c Hc; apply Hsub; now right).
    cbn [margins_loop].
    assert (Hrev : (if in_index "Total Revenue" stmt
                    then (v <- loc "Total Revenue" col ;; ret (PyFloat v))
                    else ret (PyInt 1)) = ret (period_revenue stmt col)).
    { unfold period_revenue.
      destruct (in_index "Total Revenue" stmt) eqn:Hin; [|reflexivity].
      destruct (in_index_loc _ _ _ Hshared Hin Hcol) as (v & -> & ->).
      reflexivity. }
    rewrite Hrev. cbn [bind ret].
    destruct (ne0 (period_revenue stmt col)) eqn:Hne; cbn [andb].
    + destruct (margin_of_ok "Gross Profit" _ _ _ Hshared Hcol Hne) as [gm ->].
      destruct (margin_of_ok "Operating Income" _ _ _ Hshared Hcol Hne)
        as [om ->].
      destruct (margin_of_ok "Net Income" _ _ _ Hshared Hcol Hne) as [nm ->].
      cbn [bind ret].
      destruct (IH (fig ++ [mkMarginGroup (fst col) [gm; om; nm]]) Hrest)
        as (groups & -> & Hyears & Hthree).
      exists (mkMarginGroup (fst col) [gm; om; nm] :: groups).
      rewrite <- app_assoc. split; [reflexivity|].
      rewrite filter_cons_True by assumption. cbn [map group_year].
      split; [now rewrite Hyears|]. now constructor.
    + cbn [bind ret].
      destruct (IH fig Hrest) as (groups & -> & Hyears & Hthree).
      exists groups. split; [reflexivity|].
      rewrite filter_cons_False by congruence. now split.
Qed.

Lemma filter_all_true {A : Type} (P : A -> Prop) `{!forall a, Decision (P a)}
    (l : list A) :
  (forall a, a ∈ l -> P a) -> filter P l = l.
Proof.
  induction l as [|a l IH]; intros Hall; [reflexivity|].
  rewrite filter_cons_True by (apply Hall; now left).
  f_equal. apply IH. intros a' Ha'. apply Hall. now right.
Qed.

(** X19: the "Profit Margins Over Time" chart of tab 1 raises nothing and
    never divides by a zero revenue: it draws one group of three bars
    for each period shown whose Total Revenue is not zero, in the order
    of the columns, and no group for a period whose Total Revenue is
    zero; when the statement has no Total Revenue row, every period
    shown gets a group (its figures divided by 1). *)
Theorem margin_groups_skip_zero_revenue (inc_stmt : LabelledFrame) periods :
  shared_index inc_stmt ->
  exists groups,
    margins_chart inc_stmt periods = ret groups /\
    map group_year groups
    = map fst (filter (fun col => ne0 (period_revenue inc_stmt col) = true)
                      (take periods inc_stmt)) /\
    Forall (fun g => length (group_values g) = 3%nat) groups /\
    (in_index "Total Revenue" inc_stmt = false ->
     map group_year groups = map fst (take periods inc_stmt)).
Proof.
  intros Hshared. unfold margins_chart.
  destruct (margins_loop_ok inc_stmt (take periods inc_stmt) [] Hshared)
    as (groups & Hrun & Hyears & Hthree).
  { intros col Hcol. apply list_elem_of_lookup in Hcol as [i Hi].
    apply lookup_take_Some in Hi as [Hi _].
    apply list_elem_of_lookup. eauto. }
  exists groups. split; [exact Hrun|]. split; [exact Hyears|].
  split; [exact Hthree|].
  intros Hno. rewrite Hyears. f_equal. apply filter_all_true.
  intros col _. unfold period_revenue. now rewrite Hno.
Qed.

Lemma shared_index_gap_year : shared_index income_gap_year.
Proof.
  apply (shared_index_of_doms _ {[ "Total Revenue"; "Net Income" ]}).
  repeat constructor; cbn [snd];
    rewrite dom_insert_L, dom_singleton_L; reflexivity.
Qed.

Lemma margin_groups_skip_zero_revenue_witness :
  exists groups,
    margins_chart income_gap_year 3 = ret groups /\
    map group_year groups = [2023; 2021].
Proof.
  destruct (margin_groups_skip_zero_revenue income_gap_year 3
              shared_index_gap_year)
    as (groups & Hrun & Hyears & _).
  exists groups. split; [exact Hrun|]. rewrite Hyears. reflexivity.
Defined.

(** * The statement tables *)

Lemma display_cell_zero v :
  PrimFloat.eqb v PrimFloat.zero = true -> display_cell v = CellNA.
Proof. intros H. unfold display_cell. now rewrite H. Qed.

(** A row over columns of distinct years: the cells already there stay,
    and each column gives the cell of its year. *)
Lemma display_row_ok metric (stmt cols : list (Z * Series)) row_data :
  shared_index stmt ->
  in_index metric stmt = true ->
  (forall col, col ∈ cols -> col ∈ stmt) ->
  NoDup (map fst cols) ->
  exists row,
    display_row metric cols row_data = ret row /\
    (forall col v, col ∈ cols -> snd col !! metric = Some v ->
       row !! fst col = Some (display_cell v)) /\
    (forall year, year ∉ map fst cols -> row !! year = row_data !! year).
Proof.
  intros Hshared Hin. revert row_data.
  induction cols as [|col cols IH]; intros row_data Hsub Hnodup.
  - exists row_data. split; [reflexivity|]. split; [|reflexivity].
    intros col v Hcol. now apply elem_of_nil in Hcol.
  - cbn [map] in Hnodup. apply NoDup_cons in Hnodup as [Hfresh Hnodup].
    destruct (in_index_loc metric stmt col Hshared Hin) as (v0 & Hv0 & Hloc).
    { apply Hsub. now left. }
    cbn [display_row]. rewrite Hloc. cbn [bind ret].
    destruct (IH (<[fst col := display_cell v0]> row_data))
      as (row & Hrow & Hcells & Hold); [|assumption|].
    { intros c Hc. apply Hsub. now right. }
    exists row. split; [exact Hrow|]. split.
    + intros c v Hc Hv. apply elem_of_cons in Hc as [->|Hc].
      * rewrite (Hold (fst col) Hfresh), lookup_insert_eq. congruence.
      * now apply Hcells.
    + intros year Hyear. cbn [map] in Hyear.
      apply not_elem_of_cons in Hyear as [Hne Hyear].
      rewrite (Hold year Hyear). now apply lookup_insert_ne.
Qed.

Lemma take_subset {A : Type} (l : list A) n a : a ∈ take n l -> a ∈ l.
Proof.
  intros H. apply list_elem_of_lookup in H as [i Hi].
  apply lookup_take_Some in Hi as [Hi _]. apply list_elem_of_lookup. eauto.
Qed.

(** X20: the table of a statement tab is built without error; it has one
    row for each key metric that is a row of the statement, in the order
    of the key list, and none for the others; when the periods shown
    fall in distinct years, the cell of a period holds the figure in
    billions, and a figure that is exactly zero is shown as "N/A". *)
Theorem display_table_rows (keys : list string)
    (stmt : list (Z * Series)) periods :
  shared_index stmt ->
  NoDup (map fst (take periods stmt)) ->
  exists rows,
    display_data keys stmt periods = ret rows /\
    map fst rows = filter (fun metric => in_index metric stmt = true) keys /\
    (forall metric row col v,
       (metric, row) ∈ rows -> col ∈ take periods stmt ->
       snd col !! metric = Some v ->
       row !! fst col = Some (display_cell v) /\
       (PrimFloat.eqb v PrimFloat.zero = true ->
        row !! fst col = Some CellNA)).
Proof.
  intros Hshared Hnodup. induction keys as [|metric keys IH].
  - exists []. split; [reflexivity|]. split; [reflexivity|].
    intros metric row col v H. now apply elem_of_nil in H.
  - destruct IH as (rows & Hrows & Hnames & Hcells). cbn [display_data].
    destruct (in_index metric stmt) eqn:Hin.
    + destruct (display_row_ok metric stmt (take periods stmt) ∅ Hshared Hin)
        as (row & Hrow & Hrowcells & _);
        [intros col; apply take_subset | assumption |].
      rewrite Hrow, Hrows. cbn [bind ret].
      exists ((metric, row) :: rows). split; [reflexivity|]. split.
      * rewrite filter_cons_True by assumption. cbn [map fst].
        now rewrite Hnames.
      * intros m r col v Hm Hcol Hv.
        apply elem_of_cons in Hm as [[= -> ->]|Hm].
        -- pose proof (Hrowcells col v Hcol Hv) as Hcell.
           split; [exact Hcell|]. intros Hz.
           now rewrite Hcell, (display_cell_zero v Hz).
        -- now apply (Hcells m r col v).
    + exists rows. split; [exact Hrows|]. split.
      * rewrite filter_cons_False by congruence. exact Hnames.
      * exact Hcells.
Qed.

Lemma display_table_rows_witness :
  exists rows,
    display_data key_metrics income_gap_year 3 = ret rows /\
    map fst rows = ["Total Revenue"; "Net Income"].
Proof.
  destruct (display_table_rows key_metrics income_gap_year 3
              shared_index_gap_year)
    as (rows & Hrun & Hnames & _).
  { cbn. repeat (apply NoDup_cons; split;
      [rewrite ?elem_of_cons, elem_of_nil; intros H;
       repeat (destruct H as [H|H]; [discriminate H|]); exact H|]).
    apply NoDup_nil_2. }
  exists rows. split; [exact Hrun|]. rewrite Hnames. reflexivity.
Defined.

(** * Shape of the ratio table *)








(** A ratio can also be infinite: the percentage of a quotient near the
    top of the binary64 range overflows. *)
Lemma overflow_gives_infinite_ratio :
  calculate_ratios (FetchOk ∅ [income_huge] [balance_500] [])
  = (Some (ratios_of income_huge balance_500), []) /\
  ratios_of income_huge balance_500 !! "Net Profit Margin"
  = Some (PyFloat PrimFloat.infinity) /\
  defined_number (PyFloat PrimFloat.infinity) = false.
Proof.
  split; [apply calculate_ratios_nonempty; reflexivity|].
  split; [rewrite lookup_net_profit_margin; reflexivity | reflexivity].
Qed.

(** * The peers in the comparison table *)

Section PeerTableProperties.

Variable fetch : string -> FetchData.

(** The cell of a company in a row, from its entry in [peer_ratios]. *)
Lemma comparison_row_of_entry ticker_input peers tab company ratio_name :
  dashboard fetch ticker_input peers = PeerTable tab ->
  ratio_name ∈ key_ratios ->
  peer_ratios tab !! company = Some (fst (calculate_ratios (fetch company))) ->
  match fst (calculate_ratios (fetch company)) with
  | Some r =>
      exists v, r !! ratio_name = Some v /\
        comparison_row (peer_ratios tab) ratio_name !! company = Some (ret v)
  | None => comparison_row (peer_ratios tab) ratio_name !! company = None
  end.
Proof.
  intros Hrun Hname Hentry. unfold comparison_row.
  rewrite lookup_omap, Hentry.
  destruct (calculate_ratios (fetch company)) as [[r|] ui] eqn:Hc;
    cbn [fst]; [|reflexivity].
  apply calculate_ratios_Some_inv in Hc
    as (info & li & inc & lb & bs & cf & _ & _ & _ & -> & _).
  destruct (key_ratios_present li lb ratio_name Hname) as [v Hv].
  exists v. split; [exact Hv|].
  cbn [option_bind mbind]. rewrite truthy_ratios_of. now rewrite Hv.
Qed.

Lemma size_two_keys {A} (m : gmap string A) k1 k2 :
  k1 ≠ k2 -> is_Some (m !! k1) -> is_Some (m !! k2) -> (1 < size m)%nat.
Proof.
  intros Hne H1 H2.
  pose proof (map_size_delete_Some k1 _ H1) as Hsize.
  assert (Hrest : size (delete k1 m) ≠ 0%nat).
  { apply map_size_ne_0_lookup. exists k2.
    now rewrite lookup_delete_ne by assumption. }
  lia.
Qed.

Lemma no_ratios_iff_empty info inc bs cf :
  fst (calculate_ratios (FetchOk info inc bs cf)) = None <->
  df_empty bs || df_empty inc = true.
Proof.
  split.
  - destruct (df_empty bs || df_empty inc) eqn:E; [reflexivity|].
    apply orb_false_elim in E as [Hbs Hinc].
    destruct (df_empty_false_inv _ Hbs) as (lb & bs' & -> & _).
    destruct (df_empty_false_inv _ Hinc) as (li & inc' & -> & _).
    rewrite calculate_ratios_nonempty by assumption. discriminate.
  - intros E. now rewrite calculate_ratios_empty.
Qed.

(** C7, as the code has it: in a run that reaches the peer table, a peer
    of the list whose fetch returns the failure record is no key of
    [peer_ratios] and has no cell in any row of the comparison table;
    the tab is the one the loop builds from the peers whose fetch
    succeeded, and it shows no error message. A peer whose fetch
    succeeded is a key of [peer_ratios], bound to the result of
    [calculate_ratios] on its record; in each of the five rows it has a
    cell, holding its ratio, when that result is a ratio table, and no
    cell when it is [None], which is exactly when its balance sheet or
    its income statement is empty. The table is drawn as soon as such a
    peer is not the company itself. *)
Theorem peers_in_comparison_table (ticker_input : string) (peers : list string)
    (tab : PeerTab) :
  dashboard fetch ticker_input peers = PeerTable tab ->
  (forall peer, peer ∈ peers -> success (fetch peer) = false ->
     peer_ratios tab !! peer = None /\
     forall ratio_name,
       comparison_row (peer_ratios tab) ratio_name !! peer = None) /\
  tab = peer_loop fetch
          (filter (fun peer => success (fetch peer) = true) peers)
          (mkPeerTab
             (<[ticker_input := fst (calculate_ratios (fetch ticker_input))]> ∅)
             []) /\
  shown tab = [] /\
  (forall peer, peer ∈ peers -> success (fetch peer) = true ->
     peer_ratios tab !! peer = Some (fst (calculate_ratios (fetch peer))) /\
     (peer ≠ ticker_input -> table_shown tab = true) /\
     (forall ratio_name, ratio_name ∈ key_ratios ->
        match fst (calculate_ratios (fetch peer)) with
        | Some r =>
            exists v, r !! ratio_name = Some v /\
              comparison_row (peer_ratios tab) ratio_name !! peer
              = Some (ret v)
        | None =>
            comparison_row (peer_ratios tab) ratio_name !! peer = None
        end) /\
     (forall info inc bs cf,
        fetch peer = FetchOk info inc bs cf ->
        (fst (calculate_ratios (fetch peer)) = None <->
         df_empty bs || df_empty inc = true))).
Proof.
  intros Hrun.
  assert (Hfailed : forall peer, success (fetch peer) = false ->
            peer_ratios tab !! peer = None).
  { intros peer Hs. rewrite (run_lookup _ _ _ _ _ Hrun).
    rewrite decide_False; [reflexivity|].
    apply dashboard_table in Hrun as [Hcompany _].
    intros [->|[_ H]]; congruence. }
  assert (Hok : forall peer, peer ∈ peers -> success (fetch peer) = true ->
            peer_ratios tab !! peer
            = Some (fst (calculate_ratios (fetch peer)))).
  { intros peer Hin Hs. rewrite (run_lookup _ _ _ _ _ Hrun).
    rewrite decide_True; [reflexivity|]. right. now split. }
  split; [|split; [|split]].
  - intros peer _ Hs. split; [now apply Hfailed|].
    intros ratio_name. now apply comparison_row_absent, Hfailed.
  - apply dashboard_table in Hrun as [_ ->]. apply peer_loop_filter.
  - apply dashboard_table in Hrun as [_ ->]. apply peer_loop_shown.
  - intros peer Hin Hs. split; [now apply Hok|]. split; [|split].
    + intros Hne. unfold table_shown. rewrite bool_decide_eq_true.
      apply (size_two_keys _ ticker_input peer); [congruence | |].
      * rewrite (run_lookup _ _ _ _ _ Hrun), decide_True by now left. eauto.
      * rewrite Hok by assumption. eauto.
    + intros ratio_name Hname.
      apply (comparison_row_of_entry ticker_input peers); auto.
    + intros info inc bs cf ->. apply no_ratios_iff_empty.
Qed.

End PeerTableProperties.

Lemma peers_in_comparison_table_witness :
  peer_ratios
    (peer_loop sample_fetch ["MSFT"; "NOSUCH"]
       (mkPeerTab
          (<["AAPL" := fst (calculate_ratios (sample_fetch "AAPL"))]> ∅) []))
    !! "NOSUCH" = None /\
  peer_ratios
    (peer_loop sample_fetch ["MSFT"; "NOSUCH"]
       (mkPeerTab
          (<["AAPL" := fst (calculate_ratios (sample_fetch "AAPL"))]> ∅) []))
    !! "MSFT" = Some (fst (calculate_ratios (sample_fetch "MSFT"))) /\
  shown
    (peer_loop sample_fetch ["MSFT"; "NOSUCH"]
       (mkPeerTab
          (<["AAPL" := fst (calculate_ratios (sample_fetch "AAPL"))]> ∅) []))
  = [].
Proof.
  destruct (peers_in_comparison_table sample_fetch "AAPL" ["MSFT"; "NOSUCH"] _
              sample_run_table)
    as (Hfailed & _ & Hshown & Hok).
  split; [|split].
  - apply Hfailed; [|reflexivity]. rewrite !elem_of_cons. auto.
  - apply Hok; [|reflexivity]. rewrite !elem_of_cons. auto.
  - exact Hshown.
Defined.

(** C7, as stated, fails for a peer whose fetch succeeds with empty
    statements: the peer is in [peer_ratios], bound to [None], and has
    no cell in the table, like a peer whose fetch failed. *)
Lemma succeeded_peer_without_column :
  success (sample_fetch_empty "EMPTY") = true /\
  table_shown
    (peer_loop sample_fetch_empty ["EMPTY"]
       (mkPeerTab
          (<["AAPL" := fst (calculate_ratios (sample_fetch_empty "AAPL"))]> ∅)
          []))
  = true /\
  peer_ratios
    (peer_loop sample_fetch_empty ["EMPTY"]
       (mkPeerTab
          (<["AAPL" := fst (calculate_ratios (sample_fetch_empty "AAPL"))]> ∅)
          []))
    !! "EMPTY" = Some None /\
  comparison_row
    (peer_ratios
       (peer_loop sample_fetch_empty ["EMPTY"]
          (mkPeerTab
             (<["AAPL" := fst (calculate_ratios (sample_fetch_empty "AAPL"))]> ∅)
             [])))
    "ROE" !! "EMPTY" = None /\
  ~ succeeded_peers_have_columns sample_fetch_empty "AAPL" ["EMPTY"].
Proof.
  assert (Hentry :
    peer_ratios
      (peer_loop sample_fetch_empty ["EMPTY"]
         (mkPeerTab
            (<["AAPL" := fst (calculate_ratios (sample_fetch_empty "AAPL"))]> ∅)
            []))
      !! "EMPTY" = Some None).
  { rewrite (run_lookup _ _ _ _ _ sample_empty_run_table).
    rewrite decide_True; [reflexivity|].
    right. split; [rewrite elem_of_cons; now left | reflexivity]. }
  assert (Hcell :
    comparison_row
      (peer_ratios
         (peer_loop sample_fetch_empty ["EMPTY"]
            (mkPeerTab
               (<["AAPL" := fst (calculate_ratios (sample_fetch_empty "AAPL"))]> ∅)
               [])))
      "ROE" !! "EMPTY" = None).
  { unfold comparison_row. rewrite lookup_omap, Hentry. reflexivity. }
  split; [reflexivity|].
  split.
  { unfold table_shown. rewrite bool_decide_eq_true.
    apply (size_two_keys _ "AAPL" "EMPTY"); [discriminate | |].
    - rewrite (run_lookup _ _ _ _ _ sample_empty_run_table).
      rewrite decide_True; [eauto | now left].
    - rewrite Hentry. eauto. }
  split; [exact Hentry|]. split; [exact Hcell|].
  intros H.
  specialize (H _ "EMPTY" "ROE" sample_empty_run_table).
  rewrite Hcell in H. destruct H as [x Hx].
  - rewrite elem_of_cons. now left.
  - reflexivity.
  - unfold key_ratios. rewrite !elem_of_cons. auto.
  - discriminate Hx.
Qed.
